(** * bravado-core: schema-directed marshaling and the format registry

    A shallow embedding of [bravado_core/formatter.py] and
    [bravado_core/marshal.py].  Python values are a tagged union, Python
    dicts are association lists in insertion order, exceptions are an
    error type, and [warnings.warn] is a log that every computation
    carries along. *)

From Stdlib Require Import ZArith List String Ascii Bool Arith Lia PrimFloat.
Import ListNotations.
Local Open Scope string_scope.
Local Open Scope list_scope.
Local Open Scope nat_scope.

(** ** Python values *)

(** [datetime.date]: year, month, day. *)
Record date := Date { year : Z; month : Z; day : Z }.

(** [datetime.datetime]: a date, a time of day with microseconds, and an
    optional fixed UTC offset in minutes ([None] for a naive timestamp). *)
Record datetime := DateTime {
  dt_date : date;
  hour : Z;
  minute : Z;
  second : Z;
  microsecond : Z;
  utcoffset : option Z
}.

#[local] Set Warnings "-register-all".

(** The values the marshaling code handles.  A model instance carries the
    identity of its class and the name/value pairs that [dir] and
    [getattr] give for it. *)
Inductive value : Type :=
| VNone
| VBool (b : bool)
| VInt (z : Z)
| VFloat (f : float)
| VStr (s : string)
| VDate (d : date)
| VDateTime (t : datetime)
| VList (l : list value)
| VDict (items : list (string * value))
| VModel (cls : string) (attrs : list (string * value)).

Definition dict := list (string * value).

(** Induction over values that also reaches the elements of lists, the
    values of dicts and the attributes of model instances. *)
Section value_induction.
Variable P : value -> Prop.
Hypothesis HNone : P VNone.
Hypothesis HBool : forall b, P (VBool b).
Hypothesis HInt : forall z, P (VInt z).
Hypothesis HFloat : forall f, P (VFloat f).
Hypothesis HStr : forall s, P (VStr s).
Hypothesis HDate : forall d, P (VDate d).
Hypothesis HDateTime : forall t, P (VDateTime t).
Hypothesis HList : forall l, Forall P l -> P (VList l).
Hypothesis HDict : forall d, Forall (fun kv => P (snd kv)) d -> P (VDict d).
Hypothesis HModel :
  forall c d, Forall (fun kv => P (snd kv)) d -> P (VModel c d).

Fixpoint value_nested_ind (v : value) : P v :=
    match v with
    | VNone => HNone
    | VBool b => HBool b
    | VInt z => HInt z
    | VFloat f => HFloat f
    | VStr s => HStr s
    | VDate d => HDate d
    | VDateTime t => HDateTime t
    | VList l =>
        HList l
          ((fix go (l : list value) : Forall P l :=
              match l with
              | [] => Forall_nil _
              | x :: xs => Forall_cons x (value_nested_ind x) (go xs)
              end) l)
    | VDict d =>
        HDict d
          ((fix go (d : dict) : Forall (fun kv => P (snd kv)) d :=
              match d with
              | [] => Forall_nil _
              | kv :: xs =>
                  Forall_cons kv (value_nested_ind (snd kv)) (go xs)
              end) d)
    | VModel c d =>
        HModel c d
          ((fix go (d : dict) : Forall (fun kv => P (snd kv)) d :=
              match d with
              | [] => Forall_nil _
              | kv :: xs =>
                  Forall_cons kv (value_nested_ind (snd kv)) (go xs)
              end) d)
    end.
End value_induction.

(** [value is None] *)
Definition is_none (v : value) : bool :=
  match v with VNone => true | _ => false end.

(** Python truthiness, as used by [if x:] and [x and y]. *)
Definition truthy (v : value) : bool :=
  match v with
  | VNone => false
  | VBool b => b
  | VInt z => negb (Z.eqb z 0)
  | VFloat f => negb (PrimFloat.eqb f PrimFloat.zero)
  | VStr s => negb (String.eqb s "")
  | VList l => match l with [] => false | _ => true end
  | VDict d => match d with [] => false | _ => true end
  | VDate _ | VDateTime _ | VModel _ _ => true
  end.

(** ** Exceptions and warnings *)

(** What a [SwaggerMappingError] of marshal.py reports. *)
Inductive mapping_error :=
| UnknownType (obj_type value_ : value)
| RequiredValue (spec : value)
| ExpectedListLike (v : value)
| ExpectedDictLike (v : value)
| UnknownModel (model_name : value)
| ExpectedModel (model_name : value) (v : value).

Inductive exn :=
| SwaggerMappingError (e : mapping_error)
| KeyError (key : string)
| TypeError
| ValueError
| AttributeError
| OverflowError.

Inductive res (A : Type) :=
| Ok (a : A)
| Raise (e : exn).
Arguments Ok {A} a.
Arguments Raise {A} e.

(** The one warning of formatter.py: "%s format is not registered with
    bravado-core!" % format *)
Inductive warning := NotRegistered (format : value).

(** A computation yields the warnings it emitted, in order, and a result
    or the exception that stopped it. *)
Definition M (A : Type) : Type := list warning * res A.

Definition ret {A} (a : A) : M A := ([], Ok a).
Definition raise {A} (e : exn) : M A := ([], Raise e).
Definition warn (w : warning) : M unit := ([w], Ok tt).
Definition lift {A} (r : res A) : M A := ([], r).

Definition bind {A B} (m : M A) (k : A -> M B) : M B :=
  match m with
  | (w, Ok a) => let (w', r) := k a in (w ++ w', r)
  | (w, Raise e) => (w, Raise e)
  end.

Declare Scope py_scope.
Delimit Scope py_scope with py.
Notation "x <- m ;; k" := (bind m (fun x => k))
  (at level 61, m at next level, right associativity) : py_scope.
Notation "m ;;; k" := (bind m (fun _ => k))
  (at level 61, right associativity) : py_scope.
Local Open Scope py_scope.

Definition warnings_of {A} (m : M A) : list warning := fst m.
Definition result_of {A} (m : M A) : res A := snd m.

(** ** Dicts *)

(** [d.get(k)] for a string key. *)
Fixpoint dict_get (d : dict) (k : string) : option value :=
  match d with
  | [] => None
  | (k', v) :: rest => if String.eqb k' k then Some v else dict_get rest k
  end.

(** [k in d] *)
Definition dict_has (d : dict) (k : string) : bool :=
  match dict_get d k with Some _ => true | None => false end.

(** [d[k] = v]: an existing key keeps its position, a new key goes last. *)
Fixpoint dict_set (d : dict) (k : string) (v : value) : dict :=
  match d with
  | [] => [(k, v)]
  | (k', v') :: rest =>
      if String.eqb k' k then (k', v) :: rest
      else (k', v') :: dict_set rest k v
  end.

Definition keys (d : dict) : list string := map fst d.

(** [spec[k]] on an arbitrary value: only a dict can be subscripted by a
    string, and a missing key is a [KeyError]. *)
Definition getitem (spec : value) (k : string) : res value :=
  match spec with
  | VDict d =>
      match dict_get d k with
      | Some v => Ok v
      | None => Raise (KeyError k)
      end
  | _ => Raise TypeError
  end.

(** [spec.get(k, dflt)] where [spec] is a dict; any other value has no
    keys. *)
Definition get_or (spec : value) (k : string) (dflt : value) : value :=
  match spec with
  | VDict d => match dict_get d k with Some v => v | None => dflt end
  | _ => dflt
  end.

Definition has_key (spec : value) (k : string) : bool :=
  match spec with
  | VDict d => dict_has d k
  | _ => false
  end.

(** ** bravado_core.schema and bravado_core.model

    Neither module is part of the sources at hand; marshal.py and
    formatter.py only import from them. *)

(** What the sources use but neither define nor fix: two constants of the
    absent modules and the conversions of the Python runtime. *)
Class Externals := {
  SWAGGER_PRIMITIVES : list string;
  MODEL_MARKER : string;
  py_str : value -> res value;
  py_int : value -> res value;
  py_float : value -> res value
}.
(* SWAGGER_PRIMITIVES: the type names of the primitive kinds (schema.py).
   MODEL_MARKER: the key that tags a model spec with its name (model.py).
   py_str, py_int, py_float: str(x), int(x) and float(x) for an x that is
   not yet of that type; long is int (formatter.py, lines 14-15). *)

Module schema.

(** Modelled from the spec: [schema.has_default], "hasDefault(spec) ->
    bool": the spec declares a default, whatever its value. *)
Definition has_default (spec : value) : bool := has_key spec "default".

(** Modelled from the spec: [schema.get_default], "getDefault(spec) ->
    value". *)
Definition get_default (spec : value) : value := get_or spec "default" VNone.

(** Modelled from the spec: [schema.is_required], "isRequired(spec) ->
    bool", the property-level required flag (absent means not
    required). *)
Definition is_required (spec : value) : bool :=
  truthy (get_or spec "required" (VBool false)).

(** Modelled from the spec: [schema.has_format], "hasFormat(spec) ->
    bool". *)
Definition has_format (spec : value) : bool := has_key spec "format".

(** Modelled from the spec: [schema.get_format], "getFormat(spec) ->
    name". *)
Definition get_format (spec : value) : value := get_or spec "format" VNone.

(** Modelled from the spec: [schema.is_dict_like], "isMappingLike(value)
    -> bool". *)
Definition is_dict_like (v : value) : bool :=
  match v with VDict _ => true | _ => false end.

(** Modelled from the spec: [schema.is_list_like], "isSequenceLike(value)
    -> bool". *)
Definition is_list_like (v : value) : bool :=
  match v with VList _ => true | _ => false end.

(** Modelled from the spec: [schema.get_spec_for_prop],
    "getPropertySpec(objectSpec, objectValue, key) -> spec | absent": the
    sub-schema declared for the property, else the additional-properties
    schema when the object schema gives one, else [None]. *)
Definition get_spec_for_prop (object_spec object_value : value)
    (prop_name : string) : value :=
  match get_or (get_or object_spec "properties" (VDict [])) prop_name VNone with
  | VNone =>
      match get_or object_spec "additionalProperties" (VBool true) with
      | VDict d => VDict d
      | _ => VNone
      end
  | prop_spec => prop_spec
  end.

End schema.

Module model.

(** Modelled from the spec: [model.is_model], "a model-marker predicate
    isModel(spec) -> bool". *)
Definition is_model `{Externals} (spec : value) : bool :=
  has_key spec MODEL_MARKER.

End model.

(** [x == s] and [x in (s1, s2, ...)] for an arbitrary [x] and strings *)
Definition eq_str (v : value) (s : string) : bool :=
  match v with VStr s' => String.eqb s' s | _ => false end.

Definition in_strs (v : value) (l : list string) : bool :=
  existsb (eq_str v) l.

(** [isinstance(x, str)], [isinstance(x, float)] and [isinstance(x, int)]
    ([bool] is a subclass of [int]) *)
Definition isinstance_str (v : value) : bool :=
  match v with VStr _ => true | _ => false end.

Definition isinstance_float (v : value) : bool :=
  match v with VFloat _ => true | _ => false end.

Definition isinstance_int (v : value) : bool :=
  match v with VInt _ | VBool _ => true | _ => false end.

(** ** ISO 8601 text of dates and timestamps

    [isoformat] belongs to Python's datetime module and the parser to
    dateutil; both are outside the repository. *)

Section iso8601.
Local Open Scope Z_scope.

Definition digit (n : Z) : ascii := ascii_of_nat (Z.to_nat (48 + n)).

Definition digit_val (c : ascii) : option Z :=
  let n := Z.of_nat (nat_of_ascii c) in
  if (48 <=? n) && (n <=? 57) then Some (n - 48) else None.

(** "%02d", "%04d" and "%06d", written in front of [k] *)
Definition digits2 (n : Z) (k : string) : string :=
  String (digit (n / 10 mod 10)) (String (digit (n mod 10)) k).

Definition digits4 (n : Z) (k : string) : string :=
  digits2 (n / 100) (digits2 n k).

Definition digits6 (n : Z) (k : string) : string :=
  digits2 (n / 10000) (digits4 n k).

Definition is_leap (y : Z) : bool :=
  ((y mod 4 =? 0) && negb (y mod 100 =? 0)) || (y mod 400 =? 0).

Definition days_in_month (y m : Z) : Z :=
  if m =? 2 then (if is_leap y then 29 else 28)
  else if (m =? 4) || (m =? 6) || (m =? 9) || (m =? 11) then 30
  else 31.

(** The dates and timestamps that datetime lets exist. *)
Definition valid_date (d : date) : bool :=
  (1 <=? year d) && (year d <=? 9999) &&
  (1 <=? month d) && (month d <=? 12) &&
  (1 <=? day d) && (day d <=? days_in_month (year d) (month d)).

Definition valid_offset (o : option Z) : bool :=
  match o with
  | None => true
  | Some z => (-1440 <? z) && (z <? 1440)
  end.

Definition valid_datetime (t : datetime) : bool :=
  valid_date (dt_date t) &&
  (0 <=? hour t) && (hour t <? 24) &&
  (0 <=? minute t) && (minute t <? 60) &&
  (0 <=? second t) && (second t <? 60) &&
  (0 <=? microsecond t) && (microsecond t <? 1000000) &&
  valid_offset (utcoffset t).

(** Modelled from the spec: [date.isoformat()], "ISO-8601 date string":
    YYYY-MM-DD. *)
Definition date_isoformat_k (d : date) (k : string) : string :=
  digits4 (year d) (String "-" (digits2 (month d)
    (String "-" (digits2 (day d) k)))).

Definition date_isoformat (d : date) : string :=
  date_isoformat_k d EmptyString.

(** The UTC offset as +HH:MM or -HH:MM; nothing for a naive timestamp. *)
Definition offset_isoformat (o : option Z) : string :=
  match o with
  | None => EmptyString
  | Some z =>
      let sign : ascii := if z <? 0 then "-"%char else "+"%char in
      String sign
        (digits2 (Z.abs z / 60)
           (String ":" (digits2 (Z.abs z mod 60) EmptyString)))
  end.

(** Modelled from the spec: [datetime.isoformat()], "ISO-8601 datetime
    string": YYYY-MM-DDTHH:MM:SS, then .ffffff when the microseconds are
    not zero, then the offset. *)
Definition datetime_isoformat (t : datetime) : string :=
  date_isoformat_k (dt_date t)
    (String "T" (digits2 (hour t) (String ":" (digits2 (minute t)
      (String ":" (digits2 (second t)
        (if microsecond t =? 0 then offset_isoformat (utcoffset t)
         else String "." (digits6 (microsecond t)
                (offset_isoformat (utcoffset t)))))))))).

(** Reads exactly [n] decimal digits. *)
Fixpoint take_digits (n : nat) (acc : Z) (s : string)
    : option (Z * string) :=
  match n with
  | O => Some (acc, s)
  | S n' =>
      match s with
      | String c s' =>
          match digit_val c with
          | Some d => take_digits n' (10 * acc + d) s'
          | None => None
          end
      | EmptyString => None
      end
  end.

Definition expect (c : ascii) (s : string) : option string :=
  match s with
  | String c' s' => if Ascii.eqb c' c then Some s' else None
  | EmptyString => None
  end.

Definition parse_hhmm (s : string) : option (Z * Z * string) :=
  match take_digits 2 0 s with
  | Some (hh, s1) =>
      match expect ":" s1 with
      | Some s2 =>
          match take_digits 2 0 s2 with
          | Some (mm, s3) => Some (hh, mm, s3)
          | None => None
          end
      | None => None
      end
  | None => None
  end.

Definition parse_offset (s : string) : option (option Z) :=
  match s with
  | EmptyString => Some None
  | String sign s1 =>
      if Ascii.eqb sign "Z" then
        match s1 with EmptyString => Some (Some 0) | _ => None end
      else if Ascii.eqb sign "+" || Ascii.eqb sign "-" then
        match parse_hhmm s1 with
        | Some (hh, mm, EmptyString) =>
            let a := 60 * hh + mm in
            Some (Some (if Ascii.eqb sign "-" then - a else a))
        | _ => None
        end
      else None
  end.

Definition parse_fraction (s : string) : option (Z * string) :=
  match s with
  | String c s1 => if Ascii.eqb c "." then take_digits 6 0 s1 else Some (0, s)
  | EmptyString => Some (0, s)
  end.

Definition parse_time (d : date) (s : string) : option datetime :=
  match s with
  | EmptyString => Some (DateTime d 0 0 0 0 None)
  | String sep s1 =>
      if Ascii.eqb sep "T" || Ascii.eqb sep " " then
        match parse_hhmm s1 with
        | Some (hh, mi, s2) =>
            match expect ":" s2 with
            | Some s3 =>
                match take_digits 2 0 s3 with
                | Some (ss, s4) =>
                    match parse_fraction s4 with
                    | Some (us, s5) =>
                        match parse_offset s5 with
                        | Some off => Some (DateTime d hh mi ss us off)
                        | None => None
                        end
                    | None => None
                    end
                | None => None
                end
            | None => None
            end
        | None => None
        end
      else None
  end.

Definition parse_ymd (s : string) : option (date * string) :=
  match take_digits 4 0 s with
  | Some (y, s1) =>
      match expect "-" s1 with
      | Some s2 =>
          match take_digits 2 0 s2 with
          | Some (m, s3) =>
              match expect "-" s3 with
              | Some s4 =>
                  match take_digits 2 0 s4 with
                  | Some (d, s5) => Some (Date y m d, s5)
                  | None => None
                  end
              | None => None
              end
          | None => None
          end
      | None => None
      end
  | None => None
  end.

(** Modelled from the spec: [dateutil.parser.parse], "parse ISO
    datetime, preserving offset if present", on the texts that
    [isoformat] writes: a date alone is midnight of that day, and text
    that names no existing date or time is refused. *)
Definition parse_iso (s : string) : option datetime :=
  match parse_ymd s with
  | Some (d, s1) =>
      match parse_time d s1 with
      | Some t => if valid_datetime t then Some t else None
      | None => None
      end
  | None => None
  end.

End iso8601.

(** [x.isoformat()]: the attribute is looked up, then called.  Dates
    and timestamps have the method.  A model instance has the attributes
    it carries: one named isoformat holds a value, and calling a value
    is a [TypeError].  Nothing else among the values has the
    attribute. *)
Definition isoformat (v : value) : res value :=
  match v with
  | VDate d => Ok (VStr (date_isoformat d))
  | VDateTime t => Ok (VStr (datetime_isoformat t))
  | VModel _ attrs =>
      if dict_has attrs "isoformat" then Raise TypeError
      else Raise AttributeError
  | _ => Raise AttributeError
  end.

(** [dateutil.parser.parse(x)] *)
Definition dateutil_parse (v : value) : res datetime :=
  match v with
  | VStr s =>
      match parse_iso s with
      | Some t => Ok t
      | None => Raise ValueError
      end
  | _ => Raise TypeError
  end.

(** ** formatter.py *)

Module SwaggerFormat.

(** The namedtuple [SwaggerFormat]: 'format to_python to_wire validate
    description'. *)
Record t := Make {
  format : string;
  to_python : value -> res value;
  to_wire : value -> res value;
  validate : value -> res value;
  description : string
}.

End SwaggerFormat.

Module formatter.

(** The state of the module-level dict [_formatters]. *)
Definition registry := list (string * SwaggerFormat.t).

Fixpoint registry_get (reg : registry) (name : string)
    : option SwaggerFormat.t :=
  match reg with
  | [] => None
  | (n, f) :: rest =>
      if String.eqb n name then Some f else registry_get rest name
  end.

Fixpoint registry_set (reg : registry) (name : string)
    (f : SwaggerFormat.t) : registry :=
  match reg with
  | [] => [(name, f)]
  | (n, f') :: rest =>
      if String.eqb n name then (n, f) :: rest
      else (n, f') :: registry_set rest name f
  end.

(** [_formatters.get(format)]: the keys are format names, so only a
    string can be found; a list or a dict is not hashable. *)
Definition formatters_get (reg : registry) (format : value)
    : res (option SwaggerFormat.t) :=
  match format with
  | VStr name => Ok (registry_get reg name)
  | VList _ | VDict _ => Raise TypeError
  | _ => Ok None
  end.

Definition is_some {A} (o : option A) : bool :=
  match o with Some _ => true | None => false end.

(** [NO_OP = lambda x: None] *)
Definition NO_OP (x : value) : res value := Ok VNone.

(** formatter.py, lines 57-68 *)
Definition get_format (reg : registry) (format : value)
    : M (option SwaggerFormat.t) :=
  formatter <- lift (formatters_get reg format) ;;
  if truthy format && negb (is_some formatter)
  then warn (NotRegistered format) ;;; ret formatter
  else ret formatter.

(** formatter.py, lines 20-31 *)
Definition to_wire (reg : registry) (spec v : value) : M value :=
  if is_none v || negb (schema.has_format spec) then ret v
  else
    formatter <- get_format reg (schema.get_format spec) ;;
    match formatter with
    | Some f => lift (SwaggerFormat.to_wire f v)
    | None => ret v
    end.

(** formatter.py, lines 34-45 *)
Definition to_python (reg : registry) (spec v : value) : M value :=
  if is_none v || negb (schema.has_format spec) then ret v
  else
    formatter <- get_format reg (schema.get_format spec) ;;
    match formatter with
    | Some f => lift (SwaggerFormat.to_python f v)
    | None => ret v
    end.

(** formatter.py, lines 48-54: the new state of [_formatters] *)
Definition register_format (reg : registry) (swagger_format : SwaggerFormat.t)
    : registry :=
  registry_set reg (SwaggerFormat.format swagger_format) swagger_format.

Section builtin_formats.
Context `{Externals}.

Definition as_str (b : value) : res value :=
  if isinstance_str b then Ok b else py_str b.

Definition as_float (d : value) : res value :=
  if isinstance_float d then Ok d else py_float d.

Definition as_int (i : value) : res value :=
  if isinstance_int i then Ok i else py_int i.

Definition parse_date (d : value) : res value :=
  match dateutil_parse d with
  | Ok t => Ok (VDate (dt_date t))
  | Raise e => Raise e
  end.

Definition parse_datetime (dt : value) : res value :=
  match dateutil_parse dt with
  | Ok t => Ok (VDateTime t)
  | Raise e => Raise e
  end.

(** formatter.py, lines 91-137: the initial [_formatters] *)
Definition _formatters : registry :=
  [ ("byte",
     SwaggerFormat.Make "byte" as_str as_str NO_OP
       "Converts [wire]string:byte <=> python byte");
    ("date",
     SwaggerFormat.Make "date" parse_date isoformat NO_OP
       "Converts [wire]string:date <=> python datetime.date");
    ("double",
     SwaggerFormat.Make "double" as_float as_float NO_OP
       "Converts [wire]number:double <=> python float");
    ("date-time",
     SwaggerFormat.Make "date-time" parse_datetime isoformat NO_OP
       "Converts string:date-time <=> python datetime.datetime");
    ("float",
     SwaggerFormat.Make "float" as_float as_float NO_OP
       "Converts [wire]number:float <=> python float");
    ("int32",
     SwaggerFormat.Make "int32" as_int as_int NO_OP
       "Converts [wire]integer:int32 <=> python int");
    ("int64",
     SwaggerFormat.Make "int64" as_int as_int NO_OP
       "Converts [wire]integer:int64 <=> python long") ].

End builtin_formats.

End formatter.

(** ** marshal.py *)

Module marshal.

(** [swagger_spec]: the marshaling code reads only its [definitions],
    the dict from model names to model types; a model type is known by
    the name of its class. *)
Record Spec := { definitions : list (string * string) }.

(** [swagger_spec.definitions.get(model_name, None)] *)
Definition definitions_get (swagger_spec : Spec) (model_name : value)
    : res (option string) :=
  match model_name with
  | VStr name =>
      Ok (option_map snd
            (find (fun kv => String.eqb (fst kv) name)
                  (definitions swagger_spec)))
  | VList _ | VDict _ => Raise TypeError
  | _ => Ok None
  end.

(** [isinstance(model_value, model_type)] *)
Definition isinstance_model (model_value : value) (model_type : string)
    : bool :=
  match model_value with
  | VModel cls _ => String.eqb cls model_type
  | _ => false
  end.

Section engine.
Context `{Externals}.

(** The state of [formatter._formatters] during the call. *)
Variable reg : formatter.registry.

(** marshal.py, lines 58-79 *)
Definition marshal_primitive (spec v : value) : M value :=
  let '(default_used, v) :=
    if is_none v && schema.has_default spec
    then (true, schema.get_default spec)
    else (false, v) in
  if is_none v && schema.is_required spec
  then raise (SwaggerMappingError (RequiredValue spec))
  else
    if negb default_used then formatter.to_wire reg spec v
    else ret v.

Section sub_transforms.

(** The recursive call, [marshal_schema_object]. *)
Variable rec : Spec -> value -> value -> M value.

(** The loop of marshal.py, lines 96-98, with [result] so far. *)
Fixpoint marshal_array_loop (swagger_spec : Spec) (array_spec : value)
    (elements : list value) (result : list value) : M value :=
  match elements with
  | [] => ret (VList result)
  | element :: rest =>
      items <- lift (getitem array_spec "items") ;;
      r <- rec swagger_spec items element ;;
      marshal_array_loop swagger_spec array_spec rest (result ++ [r])
  end.

(** The loop of marshal.py, lines 117-128, with [result] so far. *)
Fixpoint marshal_object_loop (swagger_spec : Spec)
    (object_spec object_value : value) (pairs : dict) (result : dict)
    : M value :=
  match pairs with
  | [] => ret (VDict result)
  | (k, v) :: rest =>
      if is_none v
      then marshal_object_loop swagger_spec object_spec object_value rest result
      else
        let prop_spec := schema.get_spec_for_prop object_spec object_value k in
        if truthy prop_spec then
          r <- rec swagger_spec prop_spec v ;;
          marshal_object_loop swagger_spec object_spec object_value rest
            (dict_set result k r)
        else
          marshal_object_loop swagger_spec object_spec object_value rest
            (dict_set result k v)
  end.

(** [is_list_like] holds exactly of the lists. *)
Definition marshal_array_with (swagger_spec : Spec)
    (array_spec array_value : value) : M value :=
  match array_value with
  | VList elements =>
      marshal_array_loop swagger_spec array_spec elements []
  | _ => raise (SwaggerMappingError (ExpectedListLike array_value))
  end.

(** [is_dict_like] holds exactly of the dicts, whose pairs [iteritems]
    then yields in the dict's order. *)
Definition marshal_object_with (swagger_spec : Spec)
    (object_spec object_value : value) : M value :=
  match object_value with
  | VDict pairs =>
      marshal_object_loop swagger_spec object_spec object_value pairs []
  | _ => raise (SwaggerMappingError (ExpectedDictLike object_value))
  end.

(** The instance check passes only for a model instance; its dict is
    [dict((attr_name, getattr(model_value, attr_name)) for attr_name in
    dir(model_value))], and [dir] lists every name once. *)
Definition marshal_model_with (swagger_spec : Spec)
    (model_spec model_value : value) : M value :=
  model_name <- lift (getitem model_spec MODEL_MARKER) ;;
  model_type <- lift (definitions_get swagger_spec model_name) ;;
  match model_type with
  | None => raise (SwaggerMappingError (UnknownModel model_name))
  | Some model_type =>
      if negb (isinstance_model model_value model_type)
      then raise (SwaggerMappingError (ExpectedModel model_name model_value))
      else
        match model_value with
        | VModel _ attrs =>
            marshal_object_with swagger_spec model_spec (VDict attrs)
        | _ => marshal_object_with swagger_spec model_spec (VDict [])
        end
  end.

End sub_transforms.

(** marshal.py, lines 14-55 *)
Fixpoint marshal_schema_object (swagger_spec : Spec)
    (schema_object_spec v : value) {struct v} : M value :=
  obj_type <- lift (getitem schema_object_spec "type") ;;
  if in_strs obj_type SWAGGER_PRIMITIVES
  then marshal_primitive schema_object_spec v
  else if eq_str obj_type "array"
  then marshal_array_with marshal_schema_object swagger_spec
         schema_object_spec v
  else if model.is_model schema_object_spec then
    if schema.is_dict_like v
    then marshal_object_with marshal_schema_object swagger_spec
           schema_object_spec v
    else marshal_model_with marshal_schema_object swagger_spec
           schema_object_spec v
  else if eq_str obj_type "object"
  then marshal_object_with marshal_schema_object swagger_spec
         schema_object_spec v
  else if eq_str obj_type "file" then ret v
  else raise (SwaggerMappingError (UnknownType obj_type v)).

(** marshal.py, lines 82-100 *)
Definition marshal_array := marshal_array_with marshal_schema_object.

(** marshal.py, lines 103-130 *)
Definition marshal_object := marshal_object_with marshal_schema_object.

(** marshal.py, lines 133-160 *)
Definition marshal_model := marshal_model_with marshal_schema_object.

End engine.

End marshal.

(** ** The vocabulary of the properties *)

(** When the required check of the primitive sub-transform fires: the
    value is [None], the spec is required, and no default, or only a
    [None] default, stands in. *)
Definition required_value_missing (spec v : value) : bool :=
  is_none v && schema.is_required spec &&
  (negb (schema.has_default spec) || is_none (schema.get_default spec)).

(** How one element of an array is marshaled: against [array_spec['items']],
    looked up when the element is reached. *)
Definition element_marshals_to (rec : marshal.Spec -> value -> value -> M value)
    (swagger_spec : marshal.Spec) (array_spec : value) (x y : value) : Prop :=
  exists items,
    getitem array_spec "items" = Ok items /\
    result_of (rec swagger_spec items x) = Ok y.

(** What the loop of [marshal_object] does with one pair of the input:
    nothing for a [None] value; else the marshaled value, when the
    property's spec is truthy; else the value itself. *)
Definition property_outcome
    (rec : marshal.Spec -> value -> value -> M value)
    (swagger_spec : marshal.Spec) (object_spec object_value : value)
    (k : string) (v : value) (before after : option value) : Prop :=
  if is_none v then after = before
  else
    let prop_spec := schema.get_spec_for_prop object_spec object_value k in
    if truthy prop_spec
    then exists r, result_of (rec swagger_spec prop_spec v) = Ok r /\
                   after = Some r
    else after = Some v.

(** The leaves of a wire value: what is reached through sequences and
    mappings and is itself neither. *)
Inductive leaf_of : value -> value -> Prop :=
| leaf_here (x : value) :
    schema.is_list_like x = false -> schema.is_dict_like x = false ->
    leaf_of x x
| leaf_in_list (l : list value) (e x : value) :
    In e l -> leaf_of e x -> leaf_of (VList l) x
| leaf_in_dict (d : dict) (k : string) (e x : value) :
    In (k, e) d -> leaf_of e x -> leaf_of (VDict d) x.

(** [x] is a leaf of what a registered descriptor's [to_wire] returned. *)
Definition from_encoder (reg : formatter.registry) (x : value) : Prop :=
  exists name f a r,
    formatter.registry_get reg name = Some f /\
    SwaggerFormat.to_wire f a = Ok r /\
    leaf_of r x.

(** The JSON primitives. *)
Definition is_json_primitive (v : value) : bool :=
  match v with
  | VNone | VBool _ | VInt _ | VFloat _ | VStr _ => true
  | _ => false
  end.






(** The branch that [marshal_schema_object] takes for a spec (none when
    it raises before taking one). *)
Inductive branch :=
| PrimitiveBranch
| ArrayBranch
| ModelBranch
| ObjectBranch
| FileBranch.

Definition branch_of `{Externals} (spec : value) : option branch :=
  match getitem spec "type" with
  | Ok obj_type =>
      if in_strs obj_type SWAGGER_PRIMITIVES then Some PrimitiveBranch
      else if eq_str obj_type "array" then Some ArrayBranch
      else if model.is_model spec then Some ModelBranch
      else if eq_str obj_type "object" then Some ObjectBranch
      else if eq_str obj_type "file" then Some FileBranch
      else None
  | Raise _ => None
  end.

(** The descriptor that the encode path hands a value to: none for
    [None], for a spec with no format and for a format that is not
    registered. *)
Definition applied_format (reg : formatter.registry) (spec v : value)
    : option SwaggerFormat.t :=
  if is_none v || negb (schema.has_format spec) then None
  else
    match formatter.formatters_get reg (schema.get_format spec) with
    | Ok (Some f) => Some f
    | _ => None
    end.

(** The spec's model name is registered, with the class [cls] as its
    type. *)
Definition registered_instance `{Externals} (swagger_spec : marshal.Spec)
    (spec : value) (cls : string) : bool :=
  match getitem spec MODEL_MARKER with
  | Ok model_name =>
      match marshal.definitions_get swagger_spec model_name with
      | Ok (Some model_type) => String.eqb cls model_type
      | _ => false
      end
  | Raise _ => false
  end.

(** The pairs that the object sub-transform walks for a spec and a
    value: those of a dict against an object or model spec, and the
    attributes of an instance of the registered type against a model
    spec. *)
Definition object_pairs `{Externals} (swagger_spec : marshal.Spec)
    (spec v : value) : option dict :=
  match branch_of spec, v with
  | Some ObjectBranch, VDict d => Some d
  | Some ModelBranch, VDict d => Some d
  | Some ModelBranch, VModel cls attrs =>
      if registered_instance swagger_spec spec cls then Some attrs else None
  | _, _ => None
  end.

(** How a leaf [x] gets into the result of marshaling [v] against
    [spec].  At a primitive spec it is a leaf of the declared default
    (for [None]), or of what the applied descriptor's [to_wire]
    returned, or of [v] itself when no descriptor is applied.  At a file
    spec it is a leaf of [v] itself.  At an array spec it comes from an
    element, by a route against [items].  At an object or model spec it
    comes from a pair whose value is not [None]: by a route against the
    property's sub-schema when that is usable, and as a leaf of the
    value itself when it is not. *)
Inductive leaf_route `{Externals} (reg : formatter.registry)
    (swagger_spec : marshal.Spec) : value -> value -> value -> Prop :=
| route_default (spec v x : value) :
    branch_of spec = Some PrimitiveBranch ->
    is_none v = true -> schema.has_default spec = true ->
    leaf_of (schema.get_default spec) x ->
    leaf_route reg swagger_spec spec v x
| route_encoded (spec v : value) (f : SwaggerFormat.t) (r x : value) :
    branch_of spec = Some PrimitiveBranch ->
    applied_format reg spec v = Some f ->
    SwaggerFormat.to_wire f v = Ok r ->
    leaf_of r x ->
    leaf_route reg swagger_spec spec v x
| route_unformatted (spec v x : value) :
    branch_of spec = Some PrimitiveBranch ->
    is_none v && schema.has_default spec = false ->
    applied_format reg spec v = None ->
    leaf_of v x ->
    leaf_route reg swagger_spec spec v x
| route_file (spec v x : value) :
    branch_of spec = Some FileBranch ->
    leaf_of v x ->
    leaf_route reg swagger_spec spec v x
| route_item (spec items : value) (l : list value) (e x : value) :
    branch_of spec = Some ArrayBranch ->
    getitem spec "items" = Ok items ->
    In e l ->
    leaf_route reg swagger_spec items e x ->
    leaf_route reg swagger_spec spec (VList l) x
| route_property (spec v : value) (pairs : dict) (k : string)
    (e x : value) :
    object_pairs swagger_spec spec v = Some pairs ->
    In (k, e) pairs -> is_none e = false ->
    truthy (schema.get_spec_for_prop spec (VDict pairs) k) = true ->
    leaf_route reg swagger_spec
      (schema.get_spec_for_prop spec (VDict pairs) k) e x ->
    leaf_route reg swagger_spec spec v x
| route_undeclared (spec v : value) (pairs : dict) (k : string)
    (e x : value) :
    object_pairs swagger_spec spec v = Some pairs ->
    In (k, e) pairs -> is_none e = false ->
    truthy (schema.get_spec_for_prop spec (VDict pairs) k) = false ->
    leaf_of e x ->
    leaf_route reg swagger_spec spec v x.

(** Every leaf of what [v] marshals to has a route. *)
Definition leaves_routed `{Externals} (reg : formatter.registry)
    (swagger_spec : marshal.Spec) (v : value) : Prop :=
  forall spec r x,
    result_of (marshal.marshal_schema_object reg swagger_spec spec v) = Ok r ->
    leaf_of r x ->
    leaf_route reg swagger_spec spec v x.

(** ** A concrete setting for examples *)

(** Modelled from the spec: [schema.SWAGGER_PRIMITIVES], the "primitive
    kinds" of a schema node's declared type. *)
Definition swagger_primitives : list string :=
  ["integer"; "number"; "string"; "boolean"; "null"].

(** A runtime for the examples below.  They convert nothing but [None],
    booleans and strings; the conversions of the other values are left
    out and raise. *)
Definition example_str (v : value) : res value :=
  match v with
  | VStr s => Ok (VStr s)
  | VNone => Ok (VStr "None")
  | VBool true => Ok (VStr "True")
  | VBool false => Ok (VStr "False")
  | _ => Raise TypeError
  end.

Definition example_int (v : value) : res value :=
  match v with
  | VInt z => Ok (VInt z)
  | VBool b => Ok (VInt (if b then 1 else 0))
  | _ => Raise TypeError
  end.

Definition example_float (v : value) : res value :=
  match v with
  | VFloat f => Ok (VFloat f)
  | VBool b => Ok (VFloat (if b then PrimFloat.one else PrimFloat.zero))
  | _ => Raise TypeError
  end.

Definition example_externals : Externals := {|
  SWAGGER_PRIMITIVES := swagger_primitives;
  MODEL_MARKER := "x-model";
  py_str := example_str;
  py_int := example_int;
  py_float := example_float
|}.

(** The built-in formats over that runtime. *)
Definition example_formatters : formatter.registry :=
  @formatter._formatters example_externals.

(** One registered model, "Pet", whose native type is the class
    "PetClass". *)
Definition example_spec : marshal.Spec :=
  {| marshal.definitions := [("Pet", "PetClass")] |}.

(** A date-formatted spec with a default: the default comes back as it
    is, not as the date encoder would make it. *)
Definition spec_date_default : value :=
  VDict [("type", VStr "string"); ("format", VStr "date");
         ("default", VDate (Date 2024 3 15))].

(** A required spec whose declared default is [None]. *)
Definition spec_required_null_default : value :=
  VDict [("type", VStr "string"); ("default", VNone);
         ("required", VBool true)].

Definition spec_optional_date : value :=
  VDict [("type", VStr "string"); ("format", VStr "date")].


Definition spec_int64 : value :=
  VDict [("type", VStr "integer"); ("format", VStr "int64")].

Definition spec_custom_foo : value :=
  VDict [("type", VStr "string"); ("format", VStr "custom-foo")].

Definition spec_plain_string : value := VDict [("type", VStr "string")].

Definition spec_empty_format : value :=
  VDict [("type", VStr "string"); ("format", VStr "")].

Definition spec_array_of_datetimes : value :=
  VDict [("type", VStr "array");
         ("items", VDict [("type", VStr "string");
                          ("format", VStr "date-time")])].

Definition two_timestamps : list value :=
  [VDateTime (DateTime (Date 2024 3 15) 1 2 3 0 (Some (-330)%Z));
   VDateTime (DateTime (Date 2024 3 15) 1 2 3 45 None)].

Definition spec_sighting : value :=
  VDict [("type", VStr "object");
         ("properties",
          VDict [("seen", VDict [("type", VStr "boolean")]);
                 ("when", VDict [("type", VStr "string");
                                 ("format", VStr "date")])])].

Definition sighting : dict :=
  [("seen", VNone); ("when", VDate (Date 2024 3 15)); ("extra", VStr "x")].

(** An object schema whose property [a] has the empty schema. *)
Definition spec_empty_property : value :=
  VDict [("type", VStr "object"); ("properties", VDict [("a", VDict [])])].


Definition spec_pet : value :=
  VDict [("type", VStr "object"); ("x-model", VStr "Pet");
         ("properties", VDict [("name", VDict [("type", VStr "string")])])].

Definition rex : value := VModel "PetClass" [("name", VStr "rex")].

(** A spec of type 'array' that also carries the model marker. *)
Definition spec_array_with_marker : value :=
  VDict [("type", VStr "array"); ("x-model", VStr "Pet");
         ("items", VDict [("type", VStr "integer")])].

(** An object schema that declares no property. *)
Definition spec_free_object : value := VDict [("type", VStr "object")].



(** ** Further vocabulary and examples *)

(** The names under which a registry holds descriptors, in the dict's
    order. *)
Definition registered_names (reg : formatter.registry) : list string :=
  map fst reg.

(** Every descriptor sits under its own [format] name. *)
Definition registry_consistent (reg : formatter.registry) : Prop :=
  Forall (fun kv => SwaggerFormat.format (snd kv) = fst kv) reg.

(** The pairs of a dict whose value is not [None], in the dict's order. *)
Definition non_null (pairs : dict) : dict :=
  filter (fun kv => negb (is_none (snd kv))) pairs.

(** [hasattr(x, 'isoformat')] *)
Definition has_isoformat (v : value) : bool :=
  match v with
  | VDate _ | VDateTime _ => true
  | VModel _ attrs => dict_has attrs "isoformat"
  | _ => false
  end.

(** A model instance that carries an attribute named isoformat. *)
Definition stamped : value :=
  VModel "PetClass" [("isoformat", VStr "2024-03-15")].

(** A user-defined format: booleans travel as the words yes and no. *)
Definition yes_no_to_wire (v : value) : res value :=
  match v with
  | VBool true => Ok (VStr "yes")
  | VBool false => Ok (VStr "no")
  | _ => Raise ValueError
  end.

Definition yes_no_to_python (v : value) : res value :=
  match v with
  | VStr s =>
      if String.eqb s "yes" then Ok (VBool true)
      else if String.eqb s "no" then Ok (VBool false)
      else Raise ValueError
  | _ => Raise ValueError
  end.

Definition yes_no : SwaggerFormat.t :=
  SwaggerFormat.Make "yes-no" yes_no_to_python yes_no_to_wire
    formatter.NO_OP "Converts [wire]string:yes-no <=> python bool".

Definition spec_yes_no : value :=
  VDict [("type", VStr "string"); ("format", VStr "yes-no")].

(** A user-defined format that sends the word n/a as [None]. *)
Definition not_available_to_wire (v : value) : res value :=
  match v with
  | VStr s => if String.eqb s "n/a" then Ok VNone else Ok (VStr s)
  | _ => Raise ValueError
  end.

Definition not_available_to_python (v : value) : res value :=
  match v with
  | VNone => Ok (VStr "n/a")
  | VStr s => Ok (VStr s)
  | _ => Raise ValueError
  end.

Definition not_available : SwaggerFormat.t :=
  SwaggerFormat.Make "optional-text" not_available_to_python
    not_available_to_wire formatter.NO_OP
    "Converts [wire]null <=> python n/a".

Definition spec_not_available : value :=
  VDict [("type", VStr "string"); ("format", VStr "optional-text")].

Definition spec_array_no_items : value := VDict [("type", VStr "array")].

Definition spec_array_of_custom_foo : value :=
  VDict [("type", VStr "array"); ("items", spec_custom_foo)].


(** ** Laws of the computations *)

Lemma bind_ret_l {A B} (a : A) (k : A -> M B) : bind (ret a) k = k a.
Proof. unfold bind, ret. destruct (k a); reflexivity. Qed.

Lemma bind_lift_ok {A B} (a : A) (k : A -> M B) : bind (lift (Ok a)) k = k a.
Proof. apply bind_ret_l. Qed.


Lemma result_of_bind {A B} (m : M A) (k : A -> M B) :
  result_of (bind m k) =
  match result_of m with
  | Ok a => result_of (k a)
  | Raise e => Raise e
  end.
Proof.
  destruct m as [w [a | e]]; unfold bind, result_of; simpl; auto.
  destruct (k a); reflexivity.
Qed.


Lemma is_none_true (v : value) : is_none v = true <-> v = VNone.
Proof. destruct v; simpl; split; congruence. Qed.

Lemma is_none_false (v : value) : is_none v = false <-> v <> VNone.
Proof. destruct v; simpl; split; congruence. Qed.

(** ** The primitive sub-transform *)

(** The dispatch of [marshal_schema_object], with the sub-transforms by
    their names. *)
Lemma marshal_schema_object_eq `{Externals}
    (reg : formatter.registry) (swagger_spec : marshal.Spec)
    (schema_object_spec v : value) :
  marshal.marshal_schema_object reg swagger_spec schema_object_spec v =
  (obj_type <- lift (getitem schema_object_spec "type") ;;
   if in_strs obj_type SWAGGER_PRIMITIVES
   then marshal.marshal_primitive reg schema_object_spec v
   else if eq_str obj_type "array"
   then marshal.marshal_array reg swagger_spec schema_object_spec v
   else if model.is_model schema_object_spec then
     if schema.is_dict_like v
     then marshal.marshal_object reg swagger_spec schema_object_spec v
     else marshal.marshal_model reg swagger_spec schema_object_spec v
   else if eq_str obj_type "object"
   then marshal.marshal_object reg swagger_spec schema_object_spec v
   else if eq_str obj_type "file" then ret v
   else raise (SwaggerMappingError (UnknownType obj_type v))).
Proof. destruct v; reflexivity. Qed.

(** C1, as amended: for a spec that declares a default, marshaling [None]
    returns the default verbatim and emits nothing, whatever the spec's
    format and whatever is registered for it, with one exception: when
    the declared default is itself [None] and the spec is required, the
    missing-required-value error is raised. *)
Theorem marshal_primitive_default_verbatim
    (reg : formatter.registry) (spec : value)
    (Hdefault : schema.has_default spec = true) :
  marshal.marshal_primitive reg spec VNone =
  if is_none (schema.get_default spec) && schema.is_required spec
  then raise (SwaggerMappingError (RequiredValue spec))
  else ret (schema.get_default spec).
Proof.
  unfold marshal.marshal_primitive. simpl. rewrite Hdefault.
  destruct (is_none (schema.get_default spec) && schema.is_required spec);
    reflexivity.
Qed.

Lemma marshal_primitive_default_verbatim_witness :
  marshal.marshal_primitive example_formatters spec_date_default VNone =
  ret (VDate (Date 2024 3 15)).
Proof.
  exact (marshal_primitive_default_verbatim example_formatters
           spec_date_default eq_refl).
Defined.

(** C1 fails as stated: the spec declares a default, yet marshaling
    [None] does not return it. *)
Lemma default_not_returned_when_null_and_required :
  schema.has_default spec_required_null_default = true /\
  result_of
    (marshal.marshal_primitive example_formatters
       spec_required_null_default VNone)
  <> Ok (schema.get_default spec_required_null_default).
Proof. split; [reflexivity | discriminate]. Qed.

(** C2, as amended: marshaling fails with the missing-required-value
    error exactly when the value is [None], the spec is required and it
    declares no default or a [None] default.  In every other case the
    check raises nothing: a [None] value with a default yields the
    default, and any other value goes to the encode path. *)
Theorem marshal_primitive_required_enforcement
    (reg : formatter.registry) (spec v : value) :
  marshal.marshal_primitive reg spec v =
  if required_value_missing spec v
  then raise (SwaggerMappingError (RequiredValue spec))
  else if is_none v && schema.has_default spec
       then ret (schema.get_default spec)
       else formatter.to_wire reg spec v.
Proof.
  unfold marshal.marshal_primitive, required_value_missing.
  destruct (is_none v) eqn:Hv; simpl.
  - destruct (schema.has_default spec) eqn:Hd; simpl.
    + destruct (schema.is_required spec);
        destruct (is_none (schema.get_default spec)); reflexivity.
    + rewrite Hv. simpl.
      destruct (schema.is_required spec); reflexivity.
  - rewrite Hv. reflexivity.
Qed.

(** C2 fails as stated: a [None] value with a declared default still
    raises the missing-required-value error. *)
Lemma required_error_despite_default :
  schema.has_default spec_required_null_default = true /\
  marshal.marshal_primitive example_formatters
    spec_required_null_default VNone
  = raise (SwaggerMappingError (RequiredValue spec_required_null_default)).
Proof. split; reflexivity. Qed.



(** ** The format registry *)

(** C3, as amended: the encode operation returns the value unchanged
    when the value is [None] or the spec has no format.  Otherwise, for
    a format name that is not registered, it returns the value unchanged
    without raising, and it emits the warning only when the name is not
    the empty string; for a registered name it returns what that
    descriptor's [to_wire] gives for the value, and emits nothing. *)
Theorem to_wire_by_cases
    (reg : formatter.registry) (spec v : value) :
  (v = VNone \/ schema.has_format spec = false ->
   formatter.to_wire reg spec v = ret v) /\
  (forall name : string,
     v <> VNone ->
     schema.has_format spec = true ->
     schema.get_format spec = VStr name ->
     formatter.to_wire reg spec v =
     match formatter.registry_get reg name with
     | Some f => lift (SwaggerFormat.to_wire f v)
     | None =>
         (if String.eqb name "" then [] else [NotRegistered (VStr name)],
          Ok v)
     end).
Proof.
  unfold formatter.to_wire. split.
  - intros [-> | Hformat]; [reflexivity |].
    rewrite Hformat, orb_true_r. reflexivity.
  - intros name Hv Hformat Hname.
    apply is_none_false in Hv. rewrite Hv, Hformat, Hname. simpl.
    unfold formatter.get_format, formatter.formatters_get.
    rewrite bind_lift_ok. simpl.
    destruct (formatter.registry_get reg name) as [f |]; simpl.
    + rewrite andb_false_r, bind_ret_l. destruct (SwaggerFormat.to_wire f v);
        reflexivity.
    + rewrite andb_true_r. destruct (String.eqb name ""); reflexivity.
Qed.

Lemma to_wire_by_cases_witness :
  formatter.to_wire example_formatters spec_plain_string (VStr "abc")
  = ret (VStr "abc") /\
  formatter.to_wire example_formatters spec_custom_foo (VStr "abc")
  = ([NotRegistered (VStr "custom-foo")], Ok (VStr "abc")) /\
  formatter.to_wire example_formatters spec_int64 (VInt 42)
  = ret (VInt 42).
Proof.
  split; [| split].
  - apply (proj1 (to_wire_by_cases example_formatters spec_plain_string
                    (VStr "abc"))).
    right. reflexivity.
  - apply (proj2 (to_wire_by_cases example_formatters spec_custom_foo
                    (VStr "abc")) "custom-foo");
      [discriminate | reflexivity | reflexivity].
  - apply (proj2 (to_wire_by_cases example_formatters spec_int64 (VInt 42))
             "int64");
      [discriminate | reflexivity | reflexivity].
Defined.

(** C3 fails as stated: the empty format name is not registered, and
    encoding against it emits no warning. *)
Lemma unregistered_empty_format_is_silent :
  schema.has_format spec_empty_format = true /\
  formatter.registry_get example_formatters "" = None /\
  warnings_of
    (formatter.to_wire example_formatters spec_empty_format (VStr "abc"))
  = [].
Proof. repeat split. Qed.

(** ** The array sub-transform *)

Lemma marshal_array_loop_ok
    (rec : marshal.Spec -> value -> value -> M value)
    (swagger_spec : marshal.Spec) (array_spec : value)
    (elements : list value) :
  forall (acc : list value) (r : value),
    result_of
      (marshal.marshal_array_loop rec swagger_spec array_spec elements acc)
    = Ok r <->
    exists rs,
      r = VList (acc ++ rs) /\
      Forall2 (element_marshals_to rec swagger_spec array_spec) elements rs.
Proof.
  induction elements as [| x xs IH]; intros acc r;
    cbn [marshal.marshal_array_loop].
  - split.
    + intros Hr. injection Hr as <-. exists []. rewrite app_nil_r.
      split; [reflexivity | constructor].
    + intros (rs & -> & Hall). inversion Hall. rewrite app_nil_r. reflexivity.
  - rewrite result_of_bind. split.
    + destruct (getitem array_spec "items") as [items |] eqn:Hitems;
        simpl; [| discriminate].
      rewrite result_of_bind.
      destruct (result_of (rec swagger_spec items x)) as [y |] eqn:Hy;
        [| discriminate].
      intros Hr. apply IH in Hr. destruct Hr as (rs & -> & Hall).
      exists (y :: rs). rewrite <- app_assoc. split; [reflexivity |].
      constructor; [exists items; auto | assumption].
    + intros (rs & -> & Hall).
      inversion Hall as [| x' y xs' ys (items & Hitems & Hy) Hrest];
        subst.
      rewrite Hitems. simpl. rewrite result_of_bind, Hy.
      apply IH. exists ys. rewrite <- app_assoc. auto.
Qed.

(** C5: the array sub-transform fails with a mapping error when the value
    is not sequence-like.  On a sequence it returns a sequence [rs]
    exactly when every element marshals against the [items] sub-schema,
    and then [rs] has the length of the input and its i-th element is the
    marshaled i-th element of the input. *)
Theorem marshal_array_elementwise `{Externals}
    (reg : formatter.registry) (swagger_spec : marshal.Spec)
    (array_spec array_value : value) :
  (schema.is_list_like array_value = false ->
   marshal.marshal_array reg swagger_spec array_spec array_value
   = raise (SwaggerMappingError (ExpectedListLike array_value))) /\
  (forall (l : list value) (r : value),
     array_value = VList l ->
     (result_of (marshal.marshal_array reg swagger_spec array_spec array_value)
      = Ok r <->
      exists rs,
        r = VList rs /\
        Forall2
          (element_marshals_to (marshal.marshal_schema_object reg)
             swagger_spec array_spec) l rs)) /\
  (forall (l rs : list value),
     array_value = VList l ->
     result_of (marshal.marshal_array reg swagger_spec array_spec array_value)
     = Ok (VList rs) ->
     List.length rs = List.length l /\
     forall i x, nth_error l i = Some x ->
       exists y, nth_error rs i = Some y /\
         element_marshals_to (marshal.marshal_schema_object reg)
           swagger_spec array_spec x y).
Proof.
  assert (Hiff : forall l r,
    result_of (marshal.marshal_array reg swagger_spec array_spec (VList l))
    = Ok r <->
    exists rs,
      r = VList rs /\
      Forall2
        (element_marshals_to (marshal.marshal_schema_object reg)
           swagger_spec array_spec) l rs).
  { intros l r. unfold marshal.marshal_array, marshal.marshal_array_with.
    apply (marshal_array_loop_ok (marshal.marshal_schema_object reg)
             swagger_spec array_spec l [] r). }
  split; [| split].
  - destruct array_value; simpl; intros Hlike;
      try reflexivity; discriminate.
  - intros l r ->. apply Hiff.
  - intros l rs -> Hok. apply Hiff in Hok.
    destruct Hok as (rs' & Heq & Hall). injection Heq as <-.
    split; [symmetry; eapply Forall2_length; eassumption |].
    clear Hiff. induction Hall as [| x y xs ys Hxy Hall IH];
      intros i x0 Hnth.
    + destruct i; discriminate.
    + destruct i as [| i]; simpl in *.
      * injection Hnth as <-. exists y. auto.
      * apply IH. assumption.
Qed.

Lemma marshal_array_elementwise_witness :
  @marshal.marshal_array example_externals example_formatters example_spec
    spec_array_of_datetimes (VInt 7)
  = raise (SwaggerMappingError (ExpectedListLike (VInt 7))) /\
  result_of
    (@marshal.marshal_array example_externals example_formatters example_spec
       spec_array_of_datetimes (VList two_timestamps))
  = Ok (VList [VStr "2024-03-15T01:02:03-05:30";
               VStr "2024-03-15T01:02:03.000045"]) /\
  List.length [VStr "2024-03-15T01:02:03-05:30";
               VStr "2024-03-15T01:02:03.000045"]
  = List.length two_timestamps.
Proof.
  split; [| split].
  - apply (proj1 (@marshal_array_elementwise example_externals
                    example_formatters example_spec
                    spec_array_of_datetimes (VInt 7))).
    reflexivity.
  - apply (proj1 (proj2 (@marshal_array_elementwise example_externals
                    example_formatters example_spec
                    spec_array_of_datetimes (VList two_timestamps)))
             two_timestamps _ eq_refl).
    eexists. split; [reflexivity |].
    repeat constructor; eexists; (split; [reflexivity | reflexivity]).
  - apply (proj2 (proj2 (@marshal_array_elementwise example_externals
                    example_formatters example_spec
                    spec_array_of_datetimes (VList two_timestamps)))
             two_timestamps _ eq_refl).
    reflexivity.
Defined.

(** ** The object sub-transform *)

Lemma dict_get_set_same (d : dict) (k : string) (v : value) :
  dict_get (dict_set d k v) k = Some v.
Proof.
  induction d as [| [k' v'] d IH]; simpl.
  - rewrite String.eqb_refl. reflexivity.
  - destruct (String.eqb k' k) eqn:Hk; simpl; rewrite Hk; auto.
Qed.

Lemma dict_get_set_other (d : dict) (k k' : string) (v : value) :
  k' <> k -> dict_get (dict_set d k v) k' = dict_get d k'.
Proof.
  intros Hne. induction d as [| [k0 v0] d IH]; simpl.
  - destruct (String.eqb_spec k k'); [congruence | reflexivity].
  - destruct (String.eqb_spec k0 k) as [-> | Hk0]; simpl.
    + destruct (String.eqb_spec k k'); [congruence | reflexivity].
    + destruct (String.eqb k0 k'); auto.
Qed.

Lemma in_keys (d : dict) (k : string) (v : value) :
  In (k, v) d -> In k (keys d).
Proof. intros Hin. apply (in_map fst) in Hin. exact Hin. Qed.

Lemma marshal_object_loop_ok
    (rec : marshal.Spec -> value -> value -> M value)
    (swagger_spec : marshal.Spec) (object_spec object_value : value)
    (pairs : dict) :
  forall (acc : dict) (r : value),
    NoDup (keys pairs) ->
    result_of
      (marshal.marshal_object_loop rec swagger_spec object_spec object_value
         pairs acc) = Ok r ->
    exists rd,
      r = VDict rd /\
      (forall k, ~ In k (keys pairs) -> dict_get rd k = dict_get acc k) /\
      (forall k v, In (k, v) pairs ->
         property_outcome rec swagger_spec object_spec object_value k v
           (dict_get acc k) (dict_get rd k)).
Proof.
  induction pairs as [| [k v] rest IH]; intros acc r Hnodup Hr;
    cbn [marshal.marshal_object_loop] in Hr.
  - injection Hr as <-. exists acc. repeat split; auto.
    intros k v [].
  - inversion Hnodup as [| k0 ks Hnotin Hnodup']; subst.
    assert (Hstep : forall acc',
      result_of
        (marshal.marshal_object_loop rec swagger_spec object_spec
           object_value rest acc') = Ok r ->
      property_outcome rec swagger_spec object_spec object_value k v
        (dict_get acc k) (dict_get acc' k) ->
      (forall k', k' <> k -> dict_get acc' k' = dict_get acc k') ->
      exists rd,
        r = VDict rd /\
        (forall k', ~ In k' (keys ((k, v) :: rest)) ->
           dict_get rd k' = dict_get acc k') /\
        (forall k' v', In (k', v') ((k, v) :: rest) ->
           property_outcome rec swagger_spec object_spec object_value k' v'
             (dict_get acc k') (dict_get rd k'))).
    { intros acc' Hloop Hout Hother.
      destruct (IH acc' r Hnodup' Hloop) as (rd & -> & Hkeep & Hpairs).
      exists rd. split; [reflexivity |]. split.
      - intros k' Hk'. simpl in Hk'.
        rewrite Hkeep by tauto. apply Hother. intros ->. tauto.
      - intros k' v' [Heq | Hin].
        + injection Heq as <- <-. rewrite (Hkeep k Hnotin). exact Hout.
        + assert (Hne : k' <> k).
          { intros ->. apply Hnotin. eapply in_keys; eassumption. }
          specialize (Hpairs k' v' Hin).
          rewrite (Hother k' Hne) in Hpairs. exact Hpairs. }
    destruct (is_none v) eqn:Hv.
    + apply (Hstep acc Hr); [| auto].
      unfold property_outcome. rewrite Hv. reflexivity.
    + cbv zeta in Hr.
      destruct (truthy (schema.get_spec_for_prop object_spec object_value k))
        eqn:Htruthy.
      * rewrite result_of_bind in Hr.
        destruct (result_of (rec swagger_spec
                    (schema.get_spec_for_prop object_spec object_value k) v))
          as [y |] eqn:Hy; [| discriminate].
        apply (Hstep _ Hr).
        -- unfold property_outcome. rewrite Hv. cbv zeta. rewrite Htruthy.
           exists y. split; [exact Hy | apply dict_get_set_same].
        -- intros k' Hne. apply dict_get_set_other. exact Hne.
      * apply (Hstep _ Hr).
        -- unfold property_outcome. rewrite Hv. cbv zeta. rewrite Htruthy.
           apply dict_get_set_same.
        -- intros k' Hne. apply dict_get_set_other. exact Hne.
Qed.

(** The loop returns as soon as every property that is marshaled
    returns. *)
Lemma marshal_object_loop_returns
    (rec : marshal.Spec -> value -> value -> M value)
    (swagger_spec : marshal.Spec) (object_spec object_value : value)
    (pairs : dict) :
  (forall k v, In (k, v) pairs -> is_none v = false ->
     truthy (schema.get_spec_for_prop object_spec object_value k) = true ->
     exists r,
       result_of
         (rec swagger_spec
            (schema.get_spec_for_prop object_spec object_value k) v) = Ok r) ->
  forall acc, exists rd,
    result_of
      (marshal.marshal_object_loop rec swagger_spec object_spec object_value
         pairs acc) = Ok (VDict rd).
Proof.
  induction pairs as [| [k v] rest IH]; intros Hall acc;
    cbn [marshal.marshal_object_loop].
  - exists acc. reflexivity.
  - assert (Hrest : forall acc', exists rd,
      result_of
        (marshal.marshal_object_loop rec swagger_spec object_spec
           object_value rest acc') = Ok (VDict rd)).
    { apply IH. intros k' v' Hin. apply Hall. right. exact Hin. }
    destruct (is_none v) eqn:Hv; [apply Hrest |]. cbv zeta.
    destruct (truthy (schema.get_spec_for_prop object_spec object_value k))
      eqn:Htruthy; [| apply Hrest].
    destruct (Hall k v (or_introl eq_refl) Hv Htruthy) as (y & Hy).
    rewrite result_of_bind, Hy. apply Hrest.
Qed.



(** C6, as amended: the object sub-transform fails with a mapping error
    when the value is not mapping-like.  On a mapping it returns a
    mapping in which, for every pair of the input: a [None] value leaves
    the key absent; a value that is not [None] and whose property
    sub-schema is found and not empty (truthy) is marshaled against that
    sub-schema and kept under the same key; a value that is not [None]
    and whose property sub-schema is absent or empty is kept unchanged
    under the same key; and no other key appears.  It returns whenever
    every property that is marshaled returns. *)
Theorem marshal_object_by_pairs `{Externals}
    (reg : formatter.registry) (swagger_spec : marshal.Spec)
    (object_spec object_value : value) :
  (schema.is_dict_like object_value = false ->
   marshal.marshal_object reg swagger_spec object_spec object_value
   = raise (SwaggerMappingError (ExpectedDictLike object_value))) /\
  (forall (pairs : dict) (r : value),
     object_value = VDict pairs ->
     NoDup (keys pairs) ->
     result_of
       (marshal.marshal_object reg swagger_spec object_spec object_value)
     = Ok r ->
     exists rd,
       r = VDict rd /\
       (forall k, ~ In k (keys pairs) -> dict_get rd k = None) /\
       (forall k v, In (k, v) pairs ->
          let prop_spec :=
            schema.get_spec_for_prop object_spec object_value k in
          (v = VNone -> dict_get rd k = None) /\
          (v <> VNone -> truthy prop_spec = true ->
           exists r',
             result_of
               (marshal.marshal_schema_object reg swagger_spec prop_spec v)
             = Ok r' /\
             dict_get rd k = Some r') /\
          (v <> VNone -> truthy prop_spec = false ->
           dict_get rd k = Some v))) /\
  (forall (pairs : dict),
     object_value = VDict pairs ->
     (forall k v, In (k, v) pairs -> v <> VNone ->
        truthy (schema.get_spec_for_prop object_spec object_value k) = true ->
        exists r',
          result_of
            (marshal.marshal_schema_object reg swagger_spec
               (schema.get_spec_for_prop object_spec object_value k) v)
          = Ok r') ->
     exists rd,
       result_of
         (marshal.marshal_object reg swagger_spec object_spec object_value)
       = Ok (VDict rd)).
Proof.
  split; [| split].
  - destruct object_value; simpl; intros Hlike;
      try reflexivity; discriminate.
  - intros pairs r -> Hnodup Hr.
    unfold marshal.marshal_object, marshal.marshal_object_with in Hr.
    destruct (marshal_object_loop_ok _ _ _ _ _ _ _ Hnodup Hr)
      as (rd & -> & Hkeep & Hpairs).
    exists rd. split; [reflexivity |]. split; [exact Hkeep |].
    intros k v Hin prop_spec. specialize (Hpairs k v Hin).
    unfold property_outcome in Hpairs. fold prop_spec in Hpairs.
    cbv zeta in Hpairs. simpl dict_get in Hpairs.
    repeat split.
    + intros ->. exact Hpairs.
    + intros Hv Htruthy. apply is_none_false in Hv.
      rewrite Hv, Htruthy in Hpairs. exact Hpairs.
    + intros Hv Htruthy. apply is_none_false in Hv.
      rewrite Hv, Htruthy in Hpairs. exact Hpairs.
  - intros pairs -> Hall.
    unfold marshal.marshal_object, marshal.marshal_object_with.
    apply marshal_object_loop_returns.
    intros k v Hin Hv. apply Hall; [exact Hin |].
    apply is_none_false. exact Hv.
Qed.

Lemma marshal_object_by_pairs_witness :
  @marshal.marshal_object example_externals example_formatters example_spec
    spec_sighting (VInt 7)
  = raise (SwaggerMappingError (ExpectedDictLike (VInt 7))) /\
  (exists rd,
     VDict [("when", VStr "2024-03-15"); ("extra", VStr "x")] = VDict rd /\
     dict_get rd "seen" = None /\
     dict_get rd "when" = Some (VStr "2024-03-15") /\
     dict_get rd "extra" = Some (VStr "x")) /\
  (exists rd,
     result_of
       (@marshal.marshal_object example_externals example_formatters
          example_spec spec_sighting (VDict sighting)) = Ok (VDict rd)).
Proof.
  split; [| split].
  - apply (proj1 (@marshal_object_by_pairs example_externals
                    example_formatters example_spec spec_sighting (VInt 7))).
    reflexivity.
  - destruct (proj1 (proj2 (@marshal_object_by_pairs example_externals
                example_formatters example_spec spec_sighting
                (VDict sighting)))
              sighting
              (VDict [("when", VStr "2024-03-15"); ("extra", VStr "x")])
              eq_refl)
      as (rd & Heq & _ & Hpairs).
    + unfold sighting, keys. simpl.
      repeat constructor; simpl; intuition discriminate.
    + reflexivity.
    + exists rd. split; [exact Heq |].
      split; [| split].
      * apply (Hpairs "seen" VNone); simpl; auto.
      * destruct (Hpairs "when" (VDate (Date 2024 3 15)))
          as (_ & Hwhen & _); [simpl; auto |].
        destruct Hwhen as (r' & Hr' & Hget);
          [discriminate | reflexivity |].
        rewrite Hget. f_equal.
        assert (Hsame : Ok r' = Ok (VStr "2024-03-15"))
          by (rewrite <- Hr'; reflexivity).
        injection Hsame as ->. reflexivity.
      * destruct (Hpairs "extra" (VStr "x")) as (_ & _ & Hextra);
          [simpl; auto |].
        apply Hextra; [discriminate | reflexivity].
  - apply (proj2 (proj2 (@marshal_object_by_pairs example_externals
                example_formatters example_spec spec_sighting
                (VDict sighting))) sighting eq_refl).
    intros k v Hin Hv Htruthy. simpl in Hin.
    destruct Hin as [Heq | [Heq | [Heq | []]]]; injection Heq as <- <-.
    + congruence.
    + eexists. reflexivity.
    + discriminate.
Defined.

(** C6 fails as stated: the property has a sub-schema, the empty one, and
    its value is not [None]; marshaling the value against that sub-schema
    raises, yet the object sub-transform returns the value unchanged. *)
Lemma found_but_empty_sub_schema_is_not_marshaled :
  schema.get_spec_for_prop spec_empty_property (VDict [("a", VInt 5)]) "a"
  = VDict [] /\
  @marshal.marshal_schema_object example_externals example_formatters
    example_spec (VDict []) (VInt 5) = raise (KeyError "type") /\
  @marshal.marshal_object example_externals example_formatters example_spec
    spec_empty_property (VDict [("a", VInt 5)])
  = ret (VDict [("a", VInt 5)]).
Proof. repeat split. Qed.



(** ** Dispatch on a model spec *)

(** C9, as amended: for a spec that carries the model marker and whose
    type is neither a primitive kind nor 'array', dispatch goes to the
    model handling, whatever else the type is, and never to the generic
    object branch.  A mapping-like value is then marshaled as a plain
    object, with no look at the model registry or at the value's type;
    any other value is marshaled as a model instance: a mapping error if
    the model name is not registered or the value is not an instance of
    the registered type, else the object sub-transform on the instance's
    attributes. *)
Theorem marshal_schema_object_model_dispatch `{Externals}
    (reg : formatter.registry) (swagger_spec : marshal.Spec)
    (spec v obj_type : value)
    (Hmodel : model.is_model spec = true)
    (Htype : getitem spec "type" = Ok obj_type)
    (Hprimitive : in_strs obj_type SWAGGER_PRIMITIVES = false)
    (Harray : eq_str obj_type "array" = false) :
  marshal.marshal_schema_object reg swagger_spec spec v =
  (if schema.is_dict_like v
   then marshal.marshal_object reg swagger_spec spec v
   else marshal.marshal_model reg swagger_spec spec v) /\
  (exists model_name, getitem spec MODEL_MARKER = Ok model_name) /\
  (forall model_name,
     getitem spec MODEL_MARKER = Ok model_name ->
     marshal.definitions_get swagger_spec model_name = Ok None ->
     marshal.marshal_model reg swagger_spec spec v
     = raise (SwaggerMappingError (UnknownModel model_name))) /\
  (forall model_name model_type,
     getitem spec MODEL_MARKER = Ok model_name ->
     marshal.definitions_get swagger_spec model_name = Ok (Some model_type) ->
     marshal.isinstance_model v model_type = false ->
     marshal.marshal_model reg swagger_spec spec v
     = raise (SwaggerMappingError (ExpectedModel model_name v))) /\
  (forall model_name model_type attrs,
     getitem spec MODEL_MARKER = Ok model_name ->
     marshal.definitions_get swagger_spec model_name = Ok (Some model_type) ->
     v = VModel model_type attrs ->
     marshal.marshal_model reg swagger_spec spec v
     = marshal.marshal_object reg swagger_spec spec (VDict attrs)).
Proof.
  split; [| split; [| split; [| split]]].
  - rewrite marshal_schema_object_eq, Htype, bind_lift_ok.
    rewrite Hprimitive, Harray, Hmodel. reflexivity.
  - unfold model.is_model, has_key in Hmodel. unfold getitem.
    destruct spec; try discriminate. unfold dict_has in Hmodel.
    destruct (dict_get items MODEL_MARKER) as [name |];
      [exists name; reflexivity | discriminate].
  - intros model_name Hname Hget.
    unfold marshal.marshal_model, marshal.marshal_model_with.
    rewrite Hname, bind_lift_ok, Hget, bind_lift_ok. reflexivity.
  - intros model_name model_type Hname Hget Hinst.
    unfold marshal.marshal_model, marshal.marshal_model_with.
    rewrite Hname, bind_lift_ok, Hget, bind_lift_ok, Hinst. reflexivity.
  - intros model_name model_type attrs Hname Hget ->.
    unfold marshal.marshal_model, marshal.marshal_model_with.
    rewrite Hname, bind_lift_ok, Hget, bind_lift_ok. simpl.
    rewrite String.eqb_refl. reflexivity.
Qed.

Lemma marshal_schema_object_model_dispatch_witness :
  @marshal.marshal_schema_object example_externals example_formatters
    example_spec spec_pet (VDict [("name", VStr "rex")])
  = @marshal.marshal_object example_externals example_formatters
      example_spec spec_pet (VDict [("name", VStr "rex")]) /\
  @marshal.marshal_schema_object example_externals example_formatters
    example_spec spec_pet rex
  = @marshal.marshal_model example_externals example_formatters
      example_spec spec_pet rex /\
  @marshal.marshal_model example_externals example_formatters
    example_spec spec_pet rex
  = ret (VDict [("name", VStr "rex")]) /\
  @marshal.marshal_model example_externals example_formatters
    example_spec spec_pet (VInt 7)
  = raise (SwaggerMappingError (ExpectedModel (VStr "Pet") (VInt 7))).
Proof.
  split; [| split; [| split]].
  - apply (@marshal_schema_object_model_dispatch example_externals
             example_formatters example_spec spec_pet
             (VDict [("name", VStr "rex")]) (VStr "object"));
      reflexivity.
  - apply (@marshal_schema_object_model_dispatch example_externals
             example_formatters example_spec spec_pet rex (VStr "object"));
      reflexivity.
  - destruct (@marshal_schema_object_model_dispatch example_externals
                example_formatters example_spec spec_pet rex (VStr "object")
                eq_refl eq_refl eq_refl eq_refl)
      as (_ & _ & _ & _ & Hinstance).
    rewrite (Hinstance (VStr "Pet") "PetClass" [("name", VStr "rex")]
               eq_refl eq_refl eq_refl).
    reflexivity.
  - destruct (@marshal_schema_object_model_dispatch example_externals
                example_formatters example_spec spec_pet (VInt 7)
                (VStr "object") eq_refl eq_refl eq_refl eq_refl)
      as (_ & _ & _ & Hmismatch & _).
    apply (Hmismatch (VStr "Pet") "PetClass"); reflexivity.
Defined.

(** C9 fails as stated: the spec carries the model marker and the value
    is not mapping-like, yet dispatch takes the array branch and returns,
    where the model handling raises. *)
Lemma marker_on_array_spec_is_not_model_handled :
  @model.is_model example_externals spec_array_with_marker = true /\
  schema.is_dict_like (VList [VInt 1]) = false /\
  @marshal.marshal_schema_object example_externals example_formatters
    example_spec spec_array_with_marker (VList [VInt 1])
  = ret (VList [VInt 1]) /\
  @marshal.marshal_model example_externals example_formatters
    example_spec spec_array_with_marker (VList [VInt 1])
  = raise (SwaggerMappingError (ExpectedModel (VStr "Pet") (VList [VInt 1]))).
Proof. repeat split. Qed.

(** ** Leaves of a marshaled value *)

Lemma Forall2_in_right {A B} (R : A -> B -> Prop) (l : list A) (rs : list B) :
  Forall2 R l rs -> forall y, In y rs -> exists x, In x l /\ R x y.
Proof.
  induction 1 as [| x y l rs Hxy Hall IH]; intros y0 Hin; [destruct Hin |].
  destruct Hin as [<- | Hin].
  - exists x. split; [left; reflexivity | exact Hxy].
  - destruct (IH y0 Hin) as (x0 & Hx0 & HR). exists x0. split; [right |]; auto.
Qed.

Lemma in_dict_set (d : dict) (k k' : string) (v y : value) :
  In (k', y) (dict_set d k v) -> In (k', y) d \/ (k' = k /\ y = v).
Proof.
  induction d as [| [k0 v0] d IH]; simpl.
  - intros [Heq | []]. injection Heq as <- <-. auto.
  - destruct (String.eqb_spec k0 k) as [-> | Hne]; simpl.
    + intros [Heq | Hin]; [injection Heq as <- <-; auto | auto].
    + intros [Heq | Hin]; [auto |].
      destruct (IH Hin) as [Hold | Hnew]; auto.
Qed.

(** Where the pairs of the object loop's result come from. *)
Lemma marshal_object_loop_origin
    (rec : marshal.Spec -> value -> value -> M value)
    (swagger_spec : marshal.Spec) (object_spec object_value : value)
    (pairs : dict) :
  forall (acc : dict) (r : value),
    result_of
      (marshal.marshal_object_loop rec swagger_spec object_spec object_value
         pairs acc) = Ok r ->
    exists rd,
      r = VDict rd /\
      forall k y, In (k, y) rd ->
        In (k, y) acc \/
        exists v,
          In (k, v) pairs /\
          (y = v \/
           result_of
             (rec swagger_spec
                (schema.get_spec_for_prop object_spec object_value k) v)
           = Ok y).
Proof.
  induction pairs as [| [k v] rest IH]; intros acc r Hr;
    cbn [marshal.marshal_object_loop] in Hr.
  - injection Hr as <-. exists acc. split; auto.
  - assert (Hstep : forall acc',
      result_of
        (marshal.marshal_object_loop rec swagger_spec object_spec
           object_value rest acc') = Ok r ->
      (forall k' y, In (k', y) acc' ->
         In (k', y) acc \/
         (k' = k /\
          (y = v \/
           result_of
             (rec swagger_spec
                (schema.get_spec_for_prop object_spec object_value k) v)
           = Ok y))) ->
      exists rd,
        r = VDict rd /\
        forall k' y, In (k', y) rd ->
          In (k', y) acc \/
          exists v',
            In (k', v') ((k, v) :: rest) /\
            (y = v' \/
             result_of
               (rec swagger_spec
                  (schema.get_spec_for_prop object_spec object_value k') v')
             = Ok y)).
    { intros acc' Hloop Hacc'.
      destruct (IH acc' r Hloop) as (rd & -> & Hrd).
      exists rd. split; [reflexivity |].
      intros k' y Hin. destruct (Hrd k' y Hin) as [Hold | (v' & Hv' & Hy)].
      - destruct (Hacc' k' y Hold) as [Hacc | (-> & Hy)]; [auto |].
        right. exists v. split; [left; reflexivity | exact Hy].
      - right. exists v'. split; [right; exact Hv' | exact Hy]. }
    destruct (is_none v); [apply (Hstep acc Hr); auto |].
    cbv zeta in Hr.
    destruct (truthy (schema.get_spec_for_prop object_spec object_value k)).
    + rewrite result_of_bind in Hr.
      destruct (result_of (rec swagger_spec
                  (schema.get_spec_for_prop object_spec object_value k) v))
        as [y |] eqn:Hy; [| discriminate].
      apply (Hstep _ Hr). intros k' y' Hin.
      destruct (in_dict_set _ _ _ _ _ Hin) as [Hold | (-> & ->)]; auto.
    + apply (Hstep _ Hr). intros k' y' Hin.
      destruct (in_dict_set _ _ _ _ _ Hin) as [Hold | (-> & ->)]; auto.
Qed.

Section leaf_routes.
Context `{Externals}.
Variable reg : formatter.registry.
Variable swagger_spec : marshal.Spec.

Lemma to_wire_route (spec v r : value) :
  result_of (formatter.to_wire reg spec v) = Ok r ->
  match applied_format reg spec v with
  | Some f => SwaggerFormat.to_wire f v = Ok r
  | None => r = v
  end.
Proof.
  unfold formatter.to_wire, applied_format.
  destruct (is_none v || negb (schema.has_format spec)).
  - intros Hr. injection Hr as <-. reflexivity.
  - rewrite result_of_bind. unfold formatter.get_format.
    rewrite result_of_bind.
    destruct (formatter.formatters_get reg (schema.get_format spec))
      as [[f |] |]; cbn [lift result_of snd]; [| | discriminate].
    + rewrite andb_false_r. cbn [ret result_of snd]. auto.
    + destruct (truthy (schema.get_format spec) && _);
        cbn; intros Hr; injection Hr as <-; reflexivity.
Qed.

Lemma marshal_primitive_routed (spec v r x : value) :
  branch_of spec = Some PrimitiveBranch ->
  result_of (marshal.marshal_primitive reg spec v) = Ok r ->
  leaf_of r x ->
  leaf_route reg swagger_spec spec v x.
Proof.
  intros Hbranch Hr Hleaf. unfold marshal.marshal_primitive in Hr.
  destruct (is_none v && schema.has_default spec) eqn:Hsubst.
  - apply andb_prop in Hsubst. destruct Hsubst as [Hv Hdefault].
    destruct (is_none (schema.get_default spec) && schema.is_required spec);
      [discriminate |].
    cbn in Hr. injection Hr as <-.
    apply route_default; assumption.
  - destruct (is_none v && schema.is_required spec); [discriminate |].
    cbn [negb] in Hr. apply to_wire_route in Hr.
    destruct (applied_format reg spec v) as [f |] eqn:Happlied.
    + apply (route_encoded reg swagger_spec spec v f r x); assumption.
    + subst r. apply route_unformatted; assumption.
Qed.

Lemma marshal_array_routed (spec v r x : value) :
  branch_of spec = Some ArrayBranch ->
  (forall l, v = VList l -> Forall (leaves_routed reg swagger_spec) l) ->
  result_of (marshal.marshal_array reg swagger_spec spec v) = Ok r ->
  leaf_of r x ->
  leaf_route reg swagger_spec spec v x.
Proof.
  intros Hbranch Hchildren Hr Hleaf.
  unfold marshal.marshal_array, marshal.marshal_array_with in Hr.
  destruct v as [| | | | | | | l | |]; try discriminate.
  apply marshal_array_loop_ok in Hr. destruct Hr as (rs & -> & Hall).
  specialize (Hchildren l eq_refl). rewrite Forall_forall in Hchildren.
  inversion Hleaf as [? Hl _ | l' y x' Hin Hy |]; subst; [discriminate |].
  destruct (Forall2_in_right _ _ _ Hall y Hin)
    as (e & He & items & Hitems & Hmarshal).
  apply (route_item reg swagger_spec spec items l e x Hbranch Hitems He).
  apply (Hchildren e He items y x Hmarshal Hy).
Qed.

(** Which pair of the input a pair of the object loop's result comes
    from, and by which of the loop's two assignments. *)
Lemma marshal_object_loop_routes
    (rec : marshal.Spec -> value -> value -> M value)
    (object_spec object_value : value) (pairs : dict) :
  forall (acc : dict) (r : value),
    result_of
      (marshal.marshal_object_loop rec swagger_spec object_spec object_value
         pairs acc) = Ok r ->
    exists rd,
      r = VDict rd /\
      forall k y, In (k, y) rd ->
        In (k, y) acc \/
        exists e,
          In (k, e) pairs /\ is_none e = false /\
          ((truthy (schema.get_spec_for_prop object_spec object_value k)
            = false /\ y = e) \/
           (truthy (schema.get_spec_for_prop object_spec object_value k)
            = true /\
            result_of
              (rec swagger_spec
                 (schema.get_spec_for_prop object_spec object_value k) e)
            = Ok y)).
Proof.
  induction pairs as [| [k e] rest IH]; intros acc r Hr;
    cbn [marshal.marshal_object_loop] in Hr.
  - injection Hr as <-. exists acc. split; auto.
  - assert (Hlater : forall acc',
      result_of
        (marshal.marshal_object_loop rec swagger_spec object_spec
           object_value rest acc') = Ok r ->
      exists rd,
        r = VDict rd /\
        forall k' y, In (k', y) rd ->
          In (k', y) acc' \/
          exists e',
            In (k', e') ((k, e) :: rest) /\ is_none e' = false /\
            ((truthy (schema.get_spec_for_prop object_spec object_value k')
              = false /\ y = e') \/
             (truthy (schema.get_spec_for_prop object_spec object_value k')
              = true /\
              result_of
                (rec swagger_spec
                   (schema.get_spec_for_prop object_spec object_value k') e')
              = Ok y))).
    { intros acc' Hloop. destruct (IH acc' r Hloop) as (rd & -> & Hrd).
      exists rd. split; [reflexivity |].
      intros k' y Hin. destruct (Hrd k' y Hin) as [Hold | (e' & He' & Hrest)];
        [left; exact Hold |].
      right. exists e'. split; [right; exact He' | exact Hrest]. }
    destruct (is_none e) eqn:He; [apply (Hlater acc Hr) |].
    cbv zeta in Hr.
    destruct (truthy (schema.get_spec_for_prop object_spec object_value k))
      eqn:Htruthy.
    + rewrite result_of_bind in Hr.
      destruct (result_of (rec swagger_spec
                  (schema.get_spec_for_prop object_spec object_value k) e))
        as [y |] eqn:Hy; [| discriminate].
      destruct (Hlater _ Hr) as (rd & -> & Hrd).
      exists rd. split; [reflexivity |].
      intros k' y' Hin. destruct (Hrd k' y' Hin) as [Hset | Hrest];
        [| right; exact Hrest].
      destruct (in_dict_set _ _ _ _ _ Hset) as [Hold | [-> ->]];
        [left; exact Hold |].
      right. exists e. split; [left; reflexivity |]. split; [exact He |].
      right. split; assumption.
    + destruct (Hlater _ Hr) as (rd & -> & Hrd).
      exists rd. split; [reflexivity |].
      intros k' y' Hin. destruct (Hrd k' y' Hin) as [Hset | Hrest];
        [| right; exact Hrest].
      destruct (in_dict_set _ _ _ _ _ Hset) as [Hold | [-> ->]];
        [left; exact Hold |].
      right. exists e. split; [left; reflexivity |]. split; [exact He |].
      left. split; [assumption | reflexivity].
Qed.

Lemma marshal_object_pairs_routed (spec v r x : value) (pairs : dict) :
  object_pairs swagger_spec spec v = Some pairs ->
  Forall (fun kv => leaves_routed reg swagger_spec (snd kv)) pairs ->
  result_of
    (marshal.marshal_object_loop (marshal.marshal_schema_object reg)
       swagger_spec spec (VDict pairs) pairs []) = Ok r ->
  leaf_of r x ->
  leaf_route reg swagger_spec spec v x.
Proof.
  intros Hpairs Hchildren Hr Hleaf.
  apply marshal_object_loop_routes in Hr. destruct Hr as (rd & -> & Hrd).
  rewrite Forall_forall in Hchildren.
  inversion Hleaf as [? _ Hd | | d k y x' Hin Hy]; subst; [discriminate |].
  destruct (Hrd k y Hin)
    as [[] | (e & He & Hnone & [[Hfalsy ->] | [Htruthy Hmarshal]])].
  - apply (route_undeclared reg swagger_spec spec v pairs k e x);
      assumption.
  - apply (route_property reg swagger_spec spec v pairs k e x);
      try assumption.
    apply (Hchildren (k, e) He _ y x Hmarshal Hy).
Qed.

Lemma marshal_object_routed (spec v r x : value) :
  branch_of spec = Some ObjectBranch \/ branch_of spec = Some ModelBranch ->
  (forall d, v = VDict d ->
     Forall (fun kv => leaves_routed reg swagger_spec (snd kv)) d) ->
  result_of (marshal.marshal_object reg swagger_spec spec v) = Ok r ->
  leaf_of r x ->
  leaf_route reg swagger_spec spec v x.
Proof.
  intros Hbranch Hchildren Hr Hleaf.
  unfold marshal.marshal_object, marshal.marshal_object_with in Hr.
  destruct v as [| | | | | | | | d |]; try discriminate.
  apply (marshal_object_pairs_routed spec (VDict d) r x d);
    [| apply Hchildren; reflexivity | exact Hr | exact Hleaf].
  unfold object_pairs. destruct Hbranch as [-> | ->]; reflexivity.
Qed.

Lemma marshal_model_routed (spec v r x : value) :
  branch_of spec = Some ModelBranch ->
  (forall c d, v = VModel c d ->
     Forall (fun kv => leaves_routed reg swagger_spec (snd kv)) d) ->
  result_of (marshal.marshal_model reg swagger_spec spec v) = Ok r ->
  leaf_of r x ->
  leaf_route reg swagger_spec spec v x.
Proof.
  intros Hbranch Hchildren Hr Hleaf.
  unfold marshal.marshal_model, marshal.marshal_model_with in Hr.
  rewrite result_of_bind in Hr.
  destruct (getitem spec MODEL_MARKER) as [model_name |] eqn:Hname;
    [| discriminate].
  cbn [lift result_of snd] in Hr. rewrite result_of_bind in Hr.
  destruct (marshal.definitions_get swagger_spec model_name)
    as [[model_type |] |] eqn:Hget; try discriminate.
  cbn [lift result_of snd] in Hr.
  destruct (marshal.isinstance_model v model_type) eqn:Hinstance;
    [| discriminate].
  destruct v as [| | | | | | | | | c d]; try discriminate.
  cbn [negb] in Hr. cbn [marshal.isinstance_model] in Hinstance.
  unfold marshal.marshal_object_with in Hr.
  apply (marshal_object_pairs_routed spec (VModel c d) r x d);
    [| apply (Hchildren c d); reflexivity | exact Hr | exact Hleaf].
  unfold object_pairs, registered_instance.
  rewrite Hbranch, Hname, Hget, Hinstance. reflexivity.
Qed.

Lemma dispatch_routed (v : value) :
  (forall l, v = VList l -> Forall (leaves_routed reg swagger_spec) l) ->
  (forall d, v = VDict d ->
     Forall (fun kv => leaves_routed reg swagger_spec (snd kv)) d) ->
  (forall c d, v = VModel c d ->
     Forall (fun kv => leaves_routed reg swagger_spec (snd kv)) d) ->
  leaves_routed reg swagger_spec v.
Proof.
  intros Hlist Hdict Hmodel spec r x Hr Hleaf.
  rewrite marshal_schema_object_eq, result_of_bind in Hr.
  assert (Hbranch : forall b,
    match getitem spec "type" with
    | Ok obj_type =>
        if in_strs obj_type SWAGGER_PRIMITIVES then Some PrimitiveBranch
        else if eq_str obj_type "array" then Some ArrayBranch
        else if model.is_model spec then Some ModelBranch
        else if eq_str obj_type "object" then Some ObjectBranch
        else if eq_str obj_type "file" then Some FileBranch
        else None
    | Raise _ => None
    end = Some b -> branch_of spec = Some b) by (intros b Hb; exact Hb).
  destruct (getitem spec "type") as [obj_type |]; [| discriminate].
  cbn [lift result_of snd] in Hr.
  destruct (in_strs obj_type SWAGGER_PRIMITIVES).
  { apply (marshal_primitive_routed spec v r x (Hbranch _ eq_refl) Hr Hleaf). }
  destruct (eq_str obj_type "array").
  { apply (marshal_array_routed spec v r x (Hbranch _ eq_refl) Hlist Hr
             Hleaf). }
  destruct (model.is_model spec).
  { destruct (schema.is_dict_like v).
    - apply (marshal_object_routed spec v r x
               (or_intror (Hbranch _ eq_refl)) Hdict Hr Hleaf).
    - apply (marshal_model_routed spec v r x (Hbranch _ eq_refl) Hmodel Hr
               Hleaf). }
  destruct (eq_str obj_type "object").
  { apply (marshal_object_routed spec v r x
             (or_introl (Hbranch _ eq_refl)) Hdict Hr Hleaf). }
  destruct (eq_str obj_type "file"); [| discriminate].
  injection Hr as <-.
  apply route_file; [apply Hbranch; reflexivity | exact Hleaf].
Qed.

Lemma leaves_routed_all (v : value) : leaves_routed reg swagger_spec v.
Proof.
  induction v using value_nested_ind;
    apply dispatch_routed; intros; try discriminate;
    match goal with
    | Heq : _ = _ |- _ => injection Heq as <-; assumption
    | Heq : _ = _ |- _ => injection Heq as <- <-; assumption
    end.
Qed.

End leaf_routes.

(** C8, as amended: for every schema and native value on which marshaling
    succeeds, every leaf of the returned value got there by one of these
    routes, through the items of array specs and the properties of
    object and model specs (a model instance against its registered
    model spec is always taken apart into its attributes).  At a
    primitive spec: as a leaf of what a registered descriptor's encode
    function returned for the value; or, for a [None] value, as a leaf
    of the default the spec declares; or as a leaf of the value itself,
    returned as it is because no descriptor is applied (the value is
    [None], the spec has no format, or its format is not registered).
    At a file spec: as a leaf of the value itself.  Under an object or
    model property that has no usable sub-schema: as a leaf of the
    property's value itself.  A value returned as it is need not be a
    JSON primitive: it can be a model instance. *)
Theorem marshal_leaves_routed `{Externals}
    (reg : formatter.registry) (swagger_spec : marshal.Spec)
    (spec v r x : value)
    (Hok : result_of (marshal.marshal_schema_object reg swagger_spec spec v)
           = Ok r)
    (Hleaf : leaf_of r x) :
  leaf_route reg swagger_spec spec v x.
Proof. exact (leaves_routed_all reg swagger_spec v spec r x Hok Hleaf). Qed.

Lemma marshal_leaves_routed_witness :
  @leaf_route example_externals example_formatters example_spec
    spec_sighting (VDict sighting) (VStr "2024-03-15") /\
  @leaf_route example_externals example_formatters example_spec
    spec_free_object (VDict [("pet", rex)]) rex /\
  @leaf_route example_externals example_formatters example_spec
    spec_pet rex (VStr "rex").
Proof.
  split; [| split].
  - apply (@marshal_leaves_routed example_externals example_formatters
             example_spec spec_sighting (VDict sighting)
             (VDict [("when", VStr "2024-03-15"); ("extra", VStr "x")])).
    + reflexivity.
    + apply (leaf_in_dict _ "when" (VStr "2024-03-15")).
      * simpl. auto.
      * apply leaf_here; reflexivity.
  - apply (@marshal_leaves_routed example_externals example_formatters
             example_spec spec_free_object (VDict [("pet", rex)])
             (VDict [("pet", rex)])).
    + reflexivity.
    + apply (leaf_in_dict _ "pet" rex); [simpl; auto |].
      apply leaf_here; reflexivity.
  - apply (@marshal_leaves_routed example_externals example_formatters
             example_spec spec_pet rex (VDict [("name", VStr "rex")])).
    + reflexivity.
    + apply (leaf_in_dict _ "name" (VStr "rex")); [simpl; auto |].
      apply leaf_here; reflexivity.
Defined.

Lemma builtin_encoders_return_scalars (name : string) (f : SwaggerFormat.t)
    (a r : value) :
  formatter.registry_get example_formatters name = Some f ->
  SwaggerFormat.to_wire f a = Ok r ->
  is_json_primitive r = true.
Proof.
  unfold example_formatters, formatter._formatters.
  cbn [formatter.registry_get].
  repeat match goal with
         | |- context [String.eqb ?s name] =>
             destruct (String.eqb s name)
         end;
    try discriminate;
    intros Hf; injection Hf as <-; cbn [SwaggerFormat.to_wire];
    destruct a as [| [|] | | | | | | | |]; simpl; try discriminate;
    try match goal with
        | |- context [dict_has ?d ?k] => destruct (dict_has d k)
        end;
    try discriminate;
    intros Hr; injection Hr as <-; reflexivity.
Qed.

(** C8 fails as stated: marshaling succeeds and a leaf of the result is
    a model instance, which is no JSON primitive and which no registered
    encoder returned. *)
Lemma model_instance_survives_as_leaf :
  @marshal.marshal_schema_object example_externals example_formatters
    example_spec spec_free_object (VDict [("pet", rex)])
  = ret (VDict [("pet", rex)]) /\
  leaf_of (VDict [("pet", rex)]) rex /\
  is_json_primitive rex = false /\
  ~ from_encoder example_formatters rex.
Proof.
  split; [reflexivity |]. split; [| split; [reflexivity |]].
  - apply (leaf_in_dict _ "pet" rex); [simpl; auto |].
    apply leaf_here; reflexivity.
  - intros (name & f & a & r & Hget & Hwire & Hleaf).
    pose proof (builtin_encoders_return_scalars _ _ _ _ Hget Hwire) as Hr.
    inversion Hleaf; subst; discriminate.
Qed.

(** ** Round trips of the built-in formats *)

Section iso8601_round_trip.
Local Open Scope Z_scope.
















End iso8601_round_trip.

Lemma registered_lookup (reg : formatter.registry) (name : string)
    (f : SwaggerFormat.t) :
  formatter.registry_get reg name = Some f ->
  formatter.get_format reg (VStr name) = ret (Some f).
Proof.
  intros Hget. unfold formatter.get_format, formatter.formatters_get.
  rewrite bind_lift_ok, Hget. simpl. rewrite andb_false_r. reflexivity.
Qed.








(** ** Further properties of the format registry *)

Lemma bind_ok {A B} (w : list warning) (a : A) (k : A -> M B) :
  bind (w, Ok a) k = (w ++ fst (k a), snd (k a)).
Proof. unfold bind. destruct (k a); reflexivity. Qed.

(** X1: the decode operation mirrors the encode operation.  It returns
    the value unchanged when the value is [None] or the spec has no
    format; for a format name that is not registered it returns the
    value unchanged, warning only when the name is not empty; for a
    registered name it returns what the descriptor's [to_python] gives
    and emits nothing. *)
Theorem to_python_by_cases
    (reg : formatter.registry) (spec v : value) :
  (v = VNone \/ schema.has_format spec = false ->
   formatter.to_python reg spec v = ret v) /\
  (forall name : string,
     v <> VNone ->
     schema.has_format spec = true ->
     schema.get_format spec = VStr name ->
     formatter.to_python reg spec v =
     match formatter.registry_get reg name with
     | Some f => lift (SwaggerFormat.to_python f v)
     | None =>
         (if String.eqb name "" then [] else [NotRegistered (VStr name)],
          Ok v)
     end).
Proof.
  unfold formatter.to_python. split.
  - intros [Hnone | Hformat].
    + subst v. reflexivity.
    + rewrite Hformat. cbn [negb]. rewrite orb_true_r. reflexivity.
  - intros name Hv Hformat Hname.
    apply is_none_false in Hv. rewrite Hv, Hformat, Hname. cbn [negb orb].
    unfold formatter.get_format, formatter.formatters_get.
    rewrite bind_lift_ok. cbn [truthy].
    destruct (formatter.registry_get reg name) as [f |];
      cbn [formatter.is_some negb].
    + rewrite andb_false_r, bind_ret_l.
      destruct (SwaggerFormat.to_python f v); reflexivity.
    + rewrite andb_true_r. destruct (String.eqb name ""); reflexivity.
Qed.

Lemma to_python_by_cases_witness :
  formatter.to_python example_formatters spec_plain_string (VStr "abc")
  = ret (VStr "abc") /\
  formatter.to_python example_formatters spec_custom_foo (VStr "abc")
  = ([NotRegistered (VStr "custom-foo")], Ok (VStr "abc")) /\
  formatter.to_python example_formatters spec_optional_date
    (VStr "2024-03-15")
  = ret (VDate (Date 2024 3 15)).
Proof.
  split; [| split].
  - apply (proj1 (to_python_by_cases example_formatters spec_plain_string
                    (VStr "abc"))).
    right. reflexivity.
  - apply (proj2 (to_python_by_cases example_formatters spec_custom_foo
                    (VStr "abc")) "custom-foo");
      [discriminate | reflexivity | reflexivity].
  - apply (proj2 (to_python_by_cases example_formatters spec_optional_date
                    (VStr "2024-03-15")) "date");
      [discriminate | reflexivity | reflexivity].
Defined.

Lemma registry_get_set_same (reg : formatter.registry) (name : string)
    (f : SwaggerFormat.t) :
  formatter.registry_get (formatter.registry_set reg name f) name = Some f.
Proof.
  induction reg as [| [n f'] reg IH]; cbn [formatter.registry_set].
  - cbn [formatter.registry_get]. rewrite String.eqb_refl. reflexivity.
  - destruct (String.eqb n name) eqn:Hn; cbn [formatter.registry_get];
      rewrite Hn; [reflexivity | exact IH].
Qed.

Lemma registry_get_set_other (reg : formatter.registry) (name name' : string)
    (f : SwaggerFormat.t) :
  name <> name' ->
  formatter.registry_get (formatter.registry_set reg name f) name'
  = formatter.registry_get reg name'.
Proof.
  intros Hne. induction reg as [| [n f'] reg IH];
    cbn [formatter.registry_set].
  - cbn [formatter.registry_get].
    destruct (String.eqb_spec name name'); [contradiction | reflexivity].
  - destruct (String.eqb_spec n name) as [Heq | Hn];
      cbn [formatter.registry_get].
    + subst n. destruct (String.eqb_spec name name');
        [contradiction | reflexivity].
    + destruct (String.eqb n name'); [reflexivity | exact IH].
Qed.

(** X2: after [register_format], looking up the registered name finds
    the new descriptor, whatever was there before, and warns of nothing;
    looking up any other name finds and warns exactly as before. *)
Theorem register_format_then_get_format
    (reg : formatter.registry) (swagger_format : SwaggerFormat.t)
    (name : string) :
  formatter.get_format (formatter.register_format reg swagger_format)
    (VStr name)
  = if String.eqb (SwaggerFormat.format swagger_format) name
    then ret (Some swagger_format)
    else formatter.get_format reg (VStr name).
Proof.
  unfold formatter.get_format, formatter.formatters_get,
    formatter.register_format.
  rewrite !bind_lift_ok.
  destruct (String.eqb_spec (SwaggerFormat.format swagger_format) name)
    as [Heq | Hne].
  - subst name. rewrite registry_get_set_same.
    cbn [formatter.is_some negb]. rewrite andb_false_r. reflexivity.
  - rewrite registry_get_set_other by exact Hne. reflexivity.
Qed.

Lemma registry_set_names (reg : formatter.registry) (name : string)
    (f : SwaggerFormat.t) :
  registered_names (formatter.registry_set reg name f) =
  if existsb (fun n => String.eqb n name) (registered_names reg)
  then registered_names reg
  else registered_names reg ++ [name].
Proof.
  unfold registered_names.
  induction reg as [| [n f'] reg IH];
    cbn [formatter.registry_set map existsb fst app]; [reflexivity |].
  destruct (String.eqb n name); cbn [map fst orb]; [reflexivity |].
  rewrite IH.
  destruct (existsb (fun n0 => String.eqb n0 name) (map fst reg));
    reflexivity.
Qed.

Lemma existsb_eqb_in (names : list string) (name : string) :
  existsb (fun n => String.eqb n name) names = true <-> In name names.
Proof.
  rewrite existsb_exists. split.
  - intros (n & Hin & Heq). apply String.eqb_eq in Heq. subst n. exact Hin.
  - intros Hin. exists name. split; [exact Hin | apply String.eqb_refl].
Qed.

Lemma NoDup_snoc (names : list string) (name : string) :
  NoDup names -> ~ In name names -> NoDup (names ++ [name]).
Proof.
  induction 1 as [| n names Hn Hnodup IH]; intros Hnotin; cbn [app].
  - constructor; [intros [] | constructor].
  - constructor.
    + rewrite in_app_iff. intros [Hin | [Heq | []]]; [auto |].
      apply Hnotin. left. symmetry. exact Heq.
    + apply IH. intros Hin. apply Hnotin. right. exact Hin.
Qed.

(** X3: [register_format] keeps every name that was registered, in its
    place, and adds the new name, at the end, only when it was not there;
    so names that are unique stay unique. *)
Theorem register_format_names
    (reg : formatter.registry) (swagger_format : SwaggerFormat.t)
    (Hunique : NoDup (registered_names reg)) :
  NoDup (registered_names (formatter.register_format reg swagger_format)) /\
  (In (SwaggerFormat.format swagger_format) (registered_names reg) ->
   registered_names (formatter.register_format reg swagger_format)
   = registered_names reg) /\
  (~ In (SwaggerFormat.format swagger_format) (registered_names reg) ->
   registered_names (formatter.register_format reg swagger_format)
   = registered_names reg ++ [SwaggerFormat.format swagger_format]).
Proof.
  unfold formatter.register_format. rewrite registry_set_names.
  destruct (existsb (fun n => String.eqb n (SwaggerFormat.format swagger_format))
              (registered_names reg)) eqn:Hexists.
  - apply existsb_eqb_in in Hexists.
    split; [exact Hunique |]. split; [reflexivity | contradiction].
  - assert (Hnotin :
      ~ In (SwaggerFormat.format swagger_format) (registered_names reg)).
    { intros Hin. apply existsb_eqb_in in Hin. congruence. }
    split; [apply NoDup_snoc; assumption |].
    split; [contradiction | reflexivity].
Qed.

Lemma register_format_names_witness :
  registered_names (formatter.register_format example_formatters yes_no)
  = ["byte"; "date"; "double"; "date-time"; "float"; "int32"; "int64";
     "yes-no"] /\
  NoDup (registered_names (formatter.register_format example_formatters yes_no)).
Proof.
  assert (Hunique : NoDup (registered_names example_formatters)).
  { unfold example_formatters, formatter._formatters, registered_names.
    cbn [map fst].
    repeat (constructor; [cbn [In]; intuition discriminate |]).
    constructor. }
  destruct (register_format_names example_formatters yes_no Hunique)
    as (Hnodup & _ & Hnew).
  split; [| exact Hnodup].
  rewrite Hnew; [reflexivity |].
  cbn. intuition discriminate.
Defined.

Lemma registry_set_consistent (reg : formatter.registry)
    (f : SwaggerFormat.t) :
  registry_consistent reg ->
  registry_consistent (formatter.registry_set reg (SwaggerFormat.format f) f).
Proof.
  unfold registry_consistent.
  induction 1 as [| [n f'] reg Hhead Htail IH]; cbn [formatter.registry_set].
  - constructor; [reflexivity | constructor].
  - destruct (String.eqb_spec n (SwaggerFormat.format f)) as [Heq | Hne].
    + constructor; [cbn [fst snd]; congruence | exact Htail].
    + constructor; [exact Hhead | exact IH].
Qed.

(** X4: every registry that grows out of the built-in table by any
    series of [register_format] calls holds each descriptor under its
    own [format] name, and holds no name twice. *)
Theorem registrations_keep_registry_well_formed `{Externals}
    (registrations : list SwaggerFormat.t) :
  let reg :=
    fold_left formatter.register_format registrations formatter._formatters in
  registry_consistent reg /\ NoDup (registered_names reg).
Proof.
  cbv zeta.
  assert (Hstart :
    registry_consistent formatter._formatters /\
    NoDup (registered_names formatter._formatters)).
  { split.
    - unfold registry_consistent, formatter._formatters.
      repeat (constructor; [reflexivity |]). constructor.
    - unfold formatter._formatters, registered_names. cbn [map fst].
      repeat (constructor; [cbn [In]; intuition discriminate |]).
      constructor. }
  revert Hstart. generalize formatter._formatters as reg.
  induction registrations as [| f rest IH]; intros reg [Hcons Hunique];
    cbn [fold_left].
  - split; assumption.
  - apply IH. split.
    + apply registry_set_consistent. exact Hcons.
    + unfold formatter.register_format. rewrite registry_set_names.
      destruct (existsb (fun n => String.eqb n (SwaggerFormat.format f))
                  (registered_names reg)) eqn:Hexists; [exact Hunique |].
      apply NoDup_snoc; [exact Hunique |].
      intros Hin. apply existsb_eqb_in in Hin. congruence.
Qed.

(** X5: once a format is registered, the primitive sub-transform encodes
    every value that is not [None], against a spec that names the
    format, with the registered [to_wire] and nothing else: no warning,
    and neither the spec's default nor its required flag plays a part. *)
Theorem register_format_then_marshal_primitive
    (reg : formatter.registry) (swagger_format : SwaggerFormat.t)
    (spec v : value)
    (Hformat : schema.has_format spec = true)
    (Hname : schema.get_format spec
             = VStr (SwaggerFormat.format swagger_format))
    (Hv : v <> VNone) :
  marshal.marshal_primitive
    (formatter.register_format reg swagger_format) spec v
  = lift (SwaggerFormat.to_wire swagger_format v).
Proof.
  apply is_none_false in Hv.
  unfold marshal.marshal_primitive. rewrite Hv. cbn [andb negb].
  rewrite Hv. cbn [andb].
  unfold formatter.to_wire. rewrite Hv, Hformat, Hname. cbn [negb orb].
  unfold formatter.get_format, formatter.formatters_get,
    formatter.register_format.
  rewrite bind_lift_ok, registry_get_set_same.
  cbn [formatter.is_some negb]. rewrite andb_false_r, bind_ret_l.
  reflexivity.
Qed.

Lemma register_format_then_marshal_primitive_witness :
  marshal.marshal_primitive
    (formatter.register_format example_formatters yes_no) spec_yes_no
    (VBool true)
  = ret (VStr "yes").
Proof.
  apply (register_format_then_marshal_primitive example_formatters yes_no
           spec_yes_no (VBool true));
    [reflexivity | reflexivity | discriminate].
Defined.

(** X6: for a registered format, encoding a value against a spec that
    names the format and decoding the result against the same spec
    emits no warning and gives what the descriptor's [to_python] makes
    of what its [to_wire] made of the value; except that [None] is never
    handed to a descriptor: when the value is [None], or is encoded as
    [None], the outcome is [None].  So a value whose encoding is not
    [None] comes back exactly when [to_python] undoes [to_wire] on it,
    and a value other than [None] that is encoded as [None] never
    does. *)
Theorem registered_format_round_trip
    (reg : formatter.registry) (swagger_format : SwaggerFormat.t)
    (spec v w : value)
    (Hformat : schema.has_format spec = true)
    (Hname : schema.get_format spec
             = VStr (SwaggerFormat.format swagger_format))
    (Hwire : SwaggerFormat.to_wire swagger_format v = Ok w) :
  (x <- formatter.to_wire
          (formatter.register_format reg swagger_format) spec v ;;
   formatter.to_python
     (formatter.register_format reg swagger_format) spec x)
  = if is_none v || is_none w then ret VNone
    else lift (SwaggerFormat.to_python swagger_format w).
Proof.
  assert (Hget :
    formatter.get_format (formatter.register_format reg swagger_format)
      (VStr (SwaggerFormat.format swagger_format))
    = ret (Some swagger_format)).
  { apply registered_lookup. unfold formatter.register_format.
    apply registry_get_set_same. }
  destruct (is_none v) eqn:Hv.
  - apply is_none_true in Hv. subst v. reflexivity.
  - unfold formatter.to_wire.
    rewrite Hv, Hformat, Hname. cbn [negb orb].
    rewrite Hget, bind_ret_l, Hwire, bind_lift_ok.
    unfold formatter.to_python.
    destruct (is_none w) eqn:Hw; cbn [orb].
    + apply is_none_true in Hw. subst w. reflexivity.
    + rewrite Hformat, Hname. cbn [negb].
      rewrite Hget, bind_ret_l. reflexivity.
Qed.

Lemma registered_format_round_trip_witness :
  (x <- formatter.to_wire
          (formatter.register_format example_formatters yes_no)
          spec_yes_no (VBool false) ;;
   formatter.to_python
     (formatter.register_format example_formatters yes_no) spec_yes_no x)
  = ret (VBool false) /\
  (x <- formatter.to_wire
          (formatter.register_format example_formatters not_available)
          spec_not_available (VStr "n/a") ;;
   formatter.to_python
     (formatter.register_format example_formatters not_available)
     spec_not_available x)
  = ret VNone.
Proof.
  split.
  - apply (registered_format_round_trip example_formatters yes_no
             spec_yes_no (VBool false) (VStr "no"));
      reflexivity.
  - apply (registered_format_round_trip example_formatters not_available
             spec_not_available (VStr "n/a") VNone);
      reflexivity.
Defined.

(** X7: with the built-in formats, marshaling against a spec of format
    date or date-time a value that is not [None] and has no attribute
    named isoformat (so neither a date, nor a timestamp, nor a model
    instance that carries such an attribute; a string with a date in it
    for one) fails with an [AttributeError], which is no mapping error;
    a model instance that does carry such an attribute fails with a
    [TypeError] instead. *)
Theorem marshal_primitive_temporal_needs_isoformat `{Externals}
    (spec v : value) (name : string)
    (Hformat : schema.has_format spec = true)
    (Hname : schema.get_format spec = VStr name)
    (Htemporal : name = "date" \/ name = "date-time")
    (Hv : v <> VNone) :
  (has_isoformat v = false ->
   marshal.marshal_primitive formatter._formatters spec v
   = raise AttributeError) /\
  (forall cls attrs,
     v = VModel cls attrs -> has_isoformat v = true ->
     marshal.marshal_primitive formatter._formatters spec v
     = raise TypeError).
Proof.
  apply is_none_false in Hv.
  assert (Hencode :
    marshal.marshal_primitive formatter._formatters spec v
    = lift (isoformat v)).
  { unfold marshal.marshal_primitive. rewrite Hv. cbn [andb negb].
    rewrite Hv. cbn [andb].
    unfold formatter.to_wire. rewrite Hv, Hformat, Hname. cbn [negb orb].
    unfold formatter.get_format, formatter.formatters_get.
    rewrite bind_lift_ok.
    destruct Htemporal as [Hdate | Hdatetime]; subst name;
      cbn [formatter._formatters formatter.registry_get String.eqb
           Ascii.eqb Bool.eqb andb formatter.is_some negb truthy];
      rewrite bind_ret_l; reflexivity. }
  rewrite Hencode. split.
  - intros Hplain. destruct v; try discriminate; try reflexivity.
    cbn [has_isoformat] in Hplain. cbn [isoformat]. rewrite Hplain.
    reflexivity.
  - intros cls attrs Heq Hstamped. subst v.
    cbn [has_isoformat] in Hstamped. cbn [isoformat]. rewrite Hstamped.
    reflexivity.
Qed.

Lemma marshal_primitive_temporal_needs_isoformat_witness :
  marshal.marshal_primitive example_formatters spec_optional_date
    (VStr "2024-03-15")
  = raise AttributeError /\
  marshal.marshal_primitive example_formatters spec_optional_date stamped
  = raise TypeError.
Proof.
  split.
  - apply (@marshal_primitive_temporal_needs_isoformat example_externals
             spec_optional_date (VStr "2024-03-15") "date");
      try reflexivity; [left; reflexivity | discriminate].
  - apply (proj2 (@marshal_primitive_temporal_needs_isoformat
                    example_externals spec_optional_date stamped "date"
                    eq_refl eq_refl (or_introl eq_refl)
                    ltac:(discriminate))
             "PetClass" [("isoformat", VStr "2024-03-15")]);
      reflexivity.
Defined.

(** ** Further properties of the marshaling engine *)

(** X8: the array sub-transform looks [items] up only when it reaches an
    element: against an array spec with no usable [items], the empty
    list still marshals to the empty list, and any other list fails with
    the error of the lookup (a [KeyError] for a missing key). *)
Theorem marshal_array_without_items `{Externals}
    (reg : formatter.registry) (swagger_spec : marshal.Spec)
    (array_spec : value) (l : list value) (e : exn)
    (Hitems : getitem array_spec "items" = Raise e) :
  marshal.marshal_array reg swagger_spec array_spec (VList l) =
  match l with
  | [] => ret (VList [])
  | _ :: _ => raise e
  end.
Proof.
  unfold marshal.marshal_array, marshal.marshal_array_with.
  destruct l as [| x xs]; cbn [marshal.marshal_array_loop].
  - reflexivity.
  - rewrite Hitems. reflexivity.
Qed.

Lemma marshal_array_without_items_witness :
  @marshal.marshal_array example_externals example_formatters example_spec
    spec_array_no_items (VList [])
  = ret (VList []) /\
  @marshal.marshal_array example_externals example_formatters example_spec
    spec_array_no_items (VList [VInt 1])
  = raise (KeyError "items").
Proof.
  split.
  - apply (@marshal_array_without_items example_externals example_formatters
             example_spec spec_array_no_items [] (KeyError "items")).
    reflexivity.
  - apply (@marshal_array_without_items example_externals example_formatters
             example_spec spec_array_no_items [VInt 1] (KeyError "items")).
    reflexivity.
Defined.




Lemma dict_set_new (d : dict) (k : string) (v : value) :
  ~ In k (keys d) -> dict_set d k v = d ++ [(k, v)].
Proof.
  induction d as [| [k' v'] d IH]; cbn [dict_set keys map fst app In];
    intros Hnotin; [reflexivity |].
  destruct (String.eqb_spec k' k) as [Heq | Hne]; [tauto |].
  f_equal. apply IH. tauto.
Qed.

Lemma keys_app (d1 d2 : dict) : keys (d1 ++ d2) = keys d1 ++ keys d2.
Proof. apply map_app. Qed.

(** The keys of the loop's result: those it started with, then those of
    the pairs it kept, in the order of the input. *)
Lemma marshal_object_loop_keys
    (rec : marshal.Spec -> value -> value -> M value)
    (swagger_spec : marshal.Spec) (object_spec object_value : value)
    (pairs : dict) :
  forall (acc : dict) (r : value),
    NoDup (keys acc ++ keys pairs) ->
    result_of
      (marshal.marshal_object_loop rec swagger_spec object_spec object_value
         pairs acc) = Ok r ->
    exists rd, r = VDict rd /\ keys rd = keys acc ++ keys (non_null pairs).
Proof.
  induction pairs as [| [k v] rest IH]; intros acc r Hnodup Hr;
    cbn [marshal.marshal_object_loop] in Hr.
  - injection Hr as <-. exists acc. cbn. rewrite app_nil_r. auto.
  - cbn [keys map fst] in Hnodup.
    assert (Hfresh : ~ In k (keys acc)).
    { apply NoDup_remove_2 in Hnodup. rewrite in_app_iff in Hnodup. tauto. }
    assert (Hnext : forall y,
      NoDup (keys (dict_set acc k y) ++ keys rest) /\
      keys (dict_set acc k y) = keys acc ++ [k]).
    { intros y. rewrite (dict_set_new acc k y Hfresh), keys_app.
      cbn [keys map fst]. rewrite <- app_assoc. auto. }
    unfold non_null. cbn [filter snd].
    destruct (is_none v) eqn:Hv; cbn [negb].
    + apply IH; [| exact Hr]. apply NoDup_remove_1 in Hnodup. exact Hnodup.
    + cbv zeta in Hr.
      destruct (truthy (schema.get_spec_for_prop object_spec object_value k)).
      * rewrite result_of_bind in Hr.
        destruct (result_of (rec swagger_spec
                    (schema.get_spec_for_prop object_spec object_value k) v))
          as [y |]; [| discriminate].
        destruct (Hnext y) as [Hnodup' Hkeys].
        destruct (IH _ _ Hnodup' Hr) as (rd & -> & Hrd).
        exists rd. split; [reflexivity |].
        rewrite Hrd, Hkeys, <- app_assoc. reflexivity.
      * destruct (Hnext v) as [Hnodup' Hkeys].
        destruct (IH _ _ Hnodup' Hr) as (rd & -> & Hrd).
        exists rd. split; [reflexivity |].
        rewrite Hrd, Hkeys, <- app_assoc. reflexivity.
Qed.

(** X10: the object sub-transform keeps the order of the input: the keys
    of the result are the keys of the input pairs whose value is not
    [None], in the input's order. *)
Theorem marshal_object_key_order `{Externals}
    (reg : formatter.registry) (swagger_spec : marshal.Spec)
    (object_spec r : value) (pairs : dict)
    (Hunique : NoDup (keys pairs))
    (Hok : result_of
             (marshal.marshal_object reg swagger_spec object_spec
                (VDict pairs)) = Ok r) :
  exists rd, r = VDict rd /\ keys rd = keys (non_null pairs).
Proof.
  unfold marshal.marshal_object, marshal.marshal_object_with in Hok.
  apply (marshal_object_loop_keys (marshal.marshal_schema_object reg)
           swagger_spec object_spec (VDict pairs) pairs [] r);
    assumption.
Qed.

Lemma marshal_object_key_order_witness :
  exists rd,
    VDict [("when", VStr "2024-03-15"); ("extra", VStr "x")] = VDict rd /\
    keys rd = ["when"; "extra"].
Proof.
  apply (@marshal_object_key_order example_externals example_formatters
           example_spec spec_sighting
           (VDict [("when", VStr "2024-03-15"); ("extra", VStr "x")])
           sighting).
  - unfold sighting. cbn [keys map fst].
    repeat (constructor; [cbn [In]; intuition discriminate |]).
    constructor.
  - reflexivity.
Defined.

Lemma non_null_idempotent (pairs : dict) :
  non_null (non_null pairs) = non_null pairs.
Proof.
  unfold non_null. induction pairs as [| [k v] rest IH]; cbn [filter snd];
    [reflexivity |].
  destruct (is_none v) eqn:Hv; cbn [negb]; [exact IH |].
  cbn [filter snd]. rewrite Hv. cbn [negb]. f_equal. exact IH.
Qed.

Lemma non_null_in (pairs : dict) (k : string) (v : value) :
  In (k, v) (non_null pairs) <-> In (k, v) pairs /\ is_none v = false.
Proof.
  unfold non_null. rewrite filter_In. cbn [snd].
  destruct (is_none v); cbn [negb]; intuition congruence.
Qed.

Lemma non_null_keys_unique (pairs : dict) :
  NoDup (keys pairs) -> NoDup (keys (non_null pairs)).
Proof.
  induction pairs as [| [k v] rest IH]; cbn [keys map fst];
    intros Hnodup; [constructor |].
  inversion Hnodup as [| k' ks Hnotin Hrest]; subst.
  unfold non_null. cbn [filter snd].
  destruct (is_none v); cbn [negb]; [apply IH; exact Hrest |].
  cbn [keys map fst]. constructor; [| apply IH; exact Hrest].
  intros Hin. apply Hnotin. apply in_map_iff in Hin.
  destruct Hin as ([k0 v0] & Hk0 & Hin0). cbn [fst] in Hk0. subst k0.
  apply non_null_in in Hin0. eapply in_keys. apply Hin0.
Qed.

Lemma marshal_object_loop_passthrough
    (rec : marshal.Spec -> value -> value -> M value)
    (swagger_spec : marshal.Spec) (object_spec object_value : value)
    (pairs : dict) :
  (forall k v, In (k, v) pairs -> is_none v = false ->
     truthy (schema.get_spec_for_prop object_spec object_value k) = false) ->
  forall acc,
    NoDup (keys acc ++ keys pairs) ->
    marshal.marshal_object_loop rec swagger_spec object_spec object_value
      pairs acc
    = ret (VDict (acc ++ non_null pairs)).
Proof.
  induction pairs as [| [k v] rest IH]; intros Hfalsy acc Hnodup;
    cbn [marshal.marshal_object_loop].
  - cbn. rewrite app_nil_r. reflexivity.
  - cbn [keys map fst] in Hnodup.
    assert (Hrest : forall k' v', In (k', v') rest -> is_none v' = false ->
      truthy (schema.get_spec_for_prop object_spec object_value k') = false).
    { intros k' v' Hin. apply Hfalsy. right. exact Hin. }
    unfold non_null. cbn [filter snd].
    destruct (is_none v) eqn:Hv; cbn [negb].
    + apply (IH Hrest). apply NoDup_remove_1 in Hnodup. exact Hnodup.
    + cbv zeta. rewrite (Hfalsy k v (or_introl eq_refl) Hv).
      assert (Hfresh : ~ In k (keys acc)).
      { apply NoDup_remove_2 in Hnodup. rewrite in_app_iff in Hnodup.
        tauto. }
      rewrite (dict_set_new acc k v Hfresh).
      rewrite (IH Hrest).
      * rewrite <- app_assoc. reflexivity.
      * rewrite keys_app. cbn [keys map fst]. rewrite <- app_assoc.
        exact Hnodup.
Qed.

(** X11: an object none of whose properties has a usable sub-schema
    marshals to itself without its [None]-valued pairs, in the same
    order and with no warning; and marshaling that result once more
    changes nothing. *)
Theorem marshal_object_without_property_specs `{Externals}
    (reg : formatter.registry) (swagger_spec : marshal.Spec)
    (object_spec : value) (pairs : dict)
    (Hunique : NoDup (keys pairs))
    (Hfalsy : forall k v, In (k, v) pairs -> v <> VNone ->
       truthy (schema.get_spec_for_prop object_spec (VDict pairs) k)
       = false) :
  marshal.marshal_object reg swagger_spec object_spec (VDict pairs)
  = ret (VDict (non_null pairs)) /\
  marshal.marshal_object reg swagger_spec object_spec
    (VDict (non_null pairs))
  = ret (VDict (non_null pairs)).
Proof.
  unfold marshal.marshal_object, marshal.marshal_object_with. split.
  - apply (marshal_object_loop_passthrough
             (marshal.marshal_schema_object reg) swagger_spec object_spec
             (VDict pairs) pairs); [| exact Hunique].
    intros k v Hin Hv. apply (Hfalsy k v Hin). apply is_none_false. exact Hv.
  - rewrite <- (non_null_idempotent pairs) at 3.
    apply (marshal_object_loop_passthrough
             (marshal.marshal_schema_object reg) swagger_spec object_spec
             (VDict (non_null pairs)) (non_null pairs)).
    + intros k v Hin Hv. apply non_null_in in Hin.
      apply (Hfalsy k v (proj1 Hin)). apply is_none_false. exact Hv.
    + apply non_null_keys_unique. exact Hunique.
Qed.

Lemma marshal_object_without_property_specs_witness :
  @marshal.marshal_object example_externals example_formatters example_spec
    spec_free_object
    (VDict [("a", VInt 1); ("b", VNone); ("c", VStr "x")])
  = ret (VDict [("a", VInt 1); ("c", VStr "x")]) /\
  @marshal.marshal_object example_externals example_formatters example_spec
    spec_free_object (VDict [("a", VInt 1); ("c", VStr "x")])
  = ret (VDict [("a", VInt 1); ("c", VStr "x")]).
Proof.
  apply (@marshal_object_without_property_specs example_externals
           example_formatters example_spec spec_free_object
           [("a", VInt 1); ("b", VNone); ("c", VStr "x")]).
  - cbn [keys map fst].
    repeat (constructor; [cbn [In]; intuition discriminate |]).
    constructor.
  - intros k v _ _. reflexivity.
Defined.




(** X13: for a model spec (type neither primitive nor 'array') whose
    model name is registered, an instance of the registered type and the
    plain dict of that instance's attributes marshal alike: same result,
    same warnings, same exception. *)
Theorem marshal_model_instance_as_its_dict `{Externals}
    (reg : formatter.registry) (swagger_spec : marshal.Spec)
    (spec obj_type model_name : value) (model_type : string) (attrs : dict)
    (Hmodel : model.is_model spec = true)
    (Htype : getitem spec "type" = Ok obj_type)
    (Hprimitive : in_strs obj_type SWAGGER_PRIMITIVES = false)
    (Harray : eq_str obj_type "array" = false)
    (Hname : getitem spec MODEL_MARKER = Ok model_name)
    (Hregistered :
       marshal.definitions_get swagger_spec model_name = Ok (Some model_type)) :
  marshal.marshal_schema_object reg swagger_spec spec
    (VModel model_type attrs)
  = marshal.marshal_schema_object reg swagger_spec spec (VDict attrs).
Proof.
  rewrite !marshal_schema_object_eq, Htype, !bind_lift_ok.
  rewrite Hprimitive, Harray, Hmodel. cbn [schema.is_dict_like].
  unfold marshal.marshal_model, marshal.marshal_model_with.
  rewrite Hname, bind_lift_ok, Hregistered, bind_lift_ok.
  cbn [marshal.isinstance_model]. rewrite String.eqb_refl. reflexivity.
Qed.

Lemma marshal_model_instance_as_its_dict_witness :
  @marshal.marshal_schema_object example_externals example_formatters
    example_spec spec_pet rex
  = @marshal.marshal_schema_object example_externals example_formatters
      example_spec spec_pet (VDict [("name", VStr "rex")]).
Proof.
  apply (@marshal_model_instance_as_its_dict example_externals
           example_formatters example_spec spec_pet (VStr "object")
           (VStr "Pet") "PetClass" [("name", VStr "rex")]);
    reflexivity.
Defined.

(** X14: what marshaling returns has the shape its schema names: against
    a spec of type 'array' a list, and against a model spec or a spec of
    type 'object' a dict, also when the value was a model instance. *)
Theorem marshal_result_shape `{Externals}
    (reg : formatter.registry) (swagger_spec : marshal.Spec)
    (spec v r obj_type : value)
    (Hok : result_of (marshal.marshal_schema_object reg swagger_spec spec v)
           = Ok r)
    (Htype : getitem spec "type" = Ok obj_type)
    (Hprimitive : in_strs obj_type SWAGGER_PRIMITIVES = false) :
  (eq_str obj_type "array" = true -> exists l, r = VList l) /\
  (eq_str obj_type "array" = false ->
   model.is_model spec = true \/ eq_str obj_type "object" = true ->
   exists d, r = VDict d).
Proof.
  rewrite marshal_schema_object_eq, Htype, bind_lift_ok, Hprimitive in Hok.
  assert (Hobject : forall object_value,
    result_of (marshal.marshal_object reg swagger_spec spec object_value)
    = Ok r -> exists d, r = VDict d).
  { intros object_value Hr.
    unfold marshal.marshal_object, marshal.marshal_object_with in Hr.
    destruct object_value; try discriminate.
    apply marshal_object_loop_origin in Hr.
    destruct Hr as (rd & Hrd & _). exists rd. exact Hrd. }
  split.
  - intros Harray. rewrite Harray in Hok.
    unfold marshal.marshal_array, marshal.marshal_array_with in Hok.
    destruct v; try discriminate.
    apply marshal_array_loop_ok in Hok. destruct Hok as (rs & Hrs & _).
    exists ([] ++ rs). exact Hrs.
  - intros Harray Hkind. rewrite Harray in Hok.
    destruct (model.is_model spec) eqn:Hmodel.
    + destruct (schema.is_dict_like v); [apply (Hobject v Hok) |].
      unfold marshal.marshal_model, marshal.marshal_model_with in Hok.
      rewrite result_of_bind in Hok.
      destruct (result_of (lift (getitem spec MODEL_MARKER)))
        as [model_name |]; [| discriminate].
      rewrite result_of_bind in Hok.
      destruct (result_of
                  (lift (marshal.definitions_get swagger_spec model_name)))
        as [[model_type |] |]; try discriminate.
      destruct (marshal.isinstance_model v model_type); [| discriminate].
      cbn [negb] in Hok.
      destruct v; apply (Hobject _ Hok).
    + destruct Hkind as [Hm | Ho]; [discriminate |].
      rewrite Ho in Hok. apply (Hobject v Hok).
Qed.

Lemma marshal_result_shape_witness :
  (exists l, VList [VInt 1] = VList l) /\
  (exists d, VDict [("name", VStr "rex")] = VDict d).
Proof.
  split.
  - apply (@marshal_result_shape example_externals example_formatters
             example_spec spec_array_with_marker (VList [VInt 1])
             (VList [VInt 1]) (VStr "array"));
      reflexivity.
  - apply (@marshal_result_shape example_externals example_formatters
             example_spec spec_pet rex (VDict [("name", VStr "rex")])
             (VStr "object"));
      try reflexivity.
    left. reflexivity.
Defined.

(** A primitive spec whose format name is not empty and not registered:
    a value that is not [None] comes back as it is, with one warning. *)
Lemma marshal_unregistered_format_element `{Externals}
    (reg : formatter.registry) (swagger_spec : marshal.Spec)
    (items obj_type x : value) (name : string) :
  getitem items "type" = Ok obj_type ->
  in_strs obj_type SWAGGER_PRIMITIVES = true ->
  schema.has_format items = true ->
  schema.get_format items = VStr name ->
  name <> "" ->
  formatter.registry_get reg name = None ->
  x <> VNone ->
  marshal.marshal_schema_object reg swagger_spec items x
  = ([NotRegistered (VStr name)], Ok x).
Proof.
  intros Htype Hprimitive Hformat Hname Hnonempty Hget Hx.
  apply is_none_false in Hx.
  rewrite marshal_schema_object_eq, Htype, bind_lift_ok, Hprimitive.
  unfold marshal.marshal_primitive. rewrite Hx. cbn [andb negb].
  rewrite Hx. cbn [andb].
  unfold formatter.to_wire. rewrite Hx, Hformat, Hname. cbn [negb orb].
  unfold formatter.get_format, formatter.formatters_get.
  rewrite bind_lift_ok, Hget. cbn [formatter.is_some negb truthy].
  apply String.eqb_neq in Hnonempty. rewrite Hnonempty. reflexivity.
Qed.

(** X15: an array whose items name a format that is not registered (and
    not empty) marshals to the same list, as long as no element is
    [None], and [warnings.warn] is called once for each element. *)
Theorem marshal_array_unregistered_format `{Externals}
    (reg : formatter.registry) (swagger_spec : marshal.Spec)
    (array_spec items obj_type : value) (name : string) (l : list value)
    (Hitems : getitem array_spec "items" = Ok items)
    (Htype : getitem items "type" = Ok obj_type)
    (Hprimitive : in_strs obj_type SWAGGER_PRIMITIVES = true)
    (Hformat : schema.has_format items = true)
    (Hname : schema.get_format items = VStr name)
    (Hnonempty : name <> "")
    (Hget : formatter.registry_get reg name = None)
    (Hl : Forall (fun x => x <> VNone) l) :
  marshal.marshal_array reg swagger_spec array_spec (VList l)
  = (repeat (NotRegistered (VStr name)) (List.length l), Ok (VList l)).
Proof.
  unfold marshal.marshal_array, marshal.marshal_array_with.
  cut (forall acc,
    marshal.marshal_array_loop (marshal.marshal_schema_object reg)
      swagger_spec array_spec l acc
    = (repeat (NotRegistered (VStr name)) (List.length l),
       Ok (VList (acc ++ l)))).
  { intros Hloop. apply (Hloop []). }
  induction Hl as [| x l Hx Hl IH]; intros acc;
    cbn [marshal.marshal_array_loop List.length repeat].
  - rewrite app_nil_r. reflexivity.
  - rewrite Hitems, bind_lift_ok.
    rewrite (marshal_unregistered_format_element reg swagger_spec items
               obj_type x name) by assumption.
    rewrite bind_ok, IH, <- app_assoc. reflexivity.
Qed.

Lemma marshal_array_unregistered_format_witness :
  @marshal.marshal_array example_externals example_formatters example_spec
    spec_array_of_custom_foo (VList [VStr "a"; VStr "b"])
  = ([NotRegistered (VStr "custom-foo"); NotRegistered (VStr "custom-foo")],
     Ok (VList [VStr "a"; VStr "b"])).
Proof.
  apply (@marshal_array_unregistered_format example_externals
           example_formatters example_spec spec_array_of_custom_foo
           spec_custom_foo (VStr "string") "custom-foo"
           [VStr "a"; VStr "b"]);
    try reflexivity; try discriminate.
  repeat constructor; discriminate.
Defined.
